(** * Portfolio API: a shallow embedding of [schemas.py] and [main.py]

    The development follows the layout of the repository:

    - JSON values and Python exceptions;
    - the pydantic models of [schemas.py] ([PortfolioProfile],
      [PortfolioProject], [ContactMessage]) with their field validation;
    - the document store behind [database.py] (the module itself is not part
      of the sources at hand, its three operations are modelled from the
      specification);
    - the route handlers of [main.py], written in a state and exception
      monad over the process state (environment, database handle, and the
      log of operations sent to the store);
    - the FastAPI dispatch around a handler: request-body validation before
      the handler runs, and the translation of the handler's outcome into a
      response.

    A Python [str] is held as its UTF-8 text, one [ascii] per byte, which is
    also what a string literal of this file denotes.  [len] counts its
    characters (code points) and [prefix] cuts it after a number of
    characters, as Python's [len(s)] and [s[:n]] do. *)

From Stdlib Require Import ZArith NArith String Ascii Lia.
From stdpp Require Import base option list gmap strings pretty.

Set Warnings "-register-all".
Local Open Scope string_scope.
Local Open Scope list_scope.

(** ** JSON values *)

Inductive Value : Type :=
| VNull
| VBool (b : bool)
| VInt (z : Z)
| VStr (s : string)
| VList (l : list Value)
| VDict (m : gmap string Value).

(** A Python [dict] with string keys: a stored document, a request body. *)
Abbreviation Document := (gmap string Value).

Definition of_optional_str (o : option string) : Value :=
  match o with
  | Some s => VStr s
  | None => VNull
  end.

(** ** Strings

    In UTF-8 every character is one leading byte followed by the
    continuation bytes [10xxxxxx] that belong to it. *)

Definition is_continuation (c : ascii) : bool :=
  match c with
  | Ascii _ _ _ _ _ _ b6 b7 => b7 && negb b6
  end.

(** [len(s)]: the number of characters. *)
Fixpoint len (s : string) : nat :=
  match s with
  | EmptyString => O
  | String c s' => if is_continuation c then len s' else S (len s')
  end.

(** [s[:n]]: the first [n] characters, the whole string when it has fewer. *)
Fixpoint prefix (n : nat) (s : string) : string :=
  match s with
  | EmptyString => EmptyString
  | String c s' =>
      if is_continuation c then String c (prefix n s')
      else
        match n with
        | O => EmptyString
        | S n' => String c (prefix n' s')
        end
  end.

(** ** Validation errors and exceptions *)

Inductive ErrorKind : Type :=
| Missing
| WrongType
| TooShort
| TooLong
| BadFormat.

Record FieldError : Type := mkFieldError { loc : string; kind : ErrorKind }.

Inductive Exn : Type :=
| Error (class : string) (msg : string)
| ValidationError (errors : list FieldError)
| HTTPException (status_code : Z) (detail : string).

(** ** The library interface

    The syntax checks behind [EmailStr] and [HttpUrl], the values other than
    the two JSON booleans that a [bool] field takes for a boolean, and the
    text pydantic gives a validation error, belong to the libraries.  Each
    syntax check returns the normalised string it accepts. *)

Class Pydantic : Type := {
  email_syntax : string -> option string;
  http_url_syntax : string -> option string;
  lax_bool : Value -> option bool;
  error_text : list FieldError -> string
}.

(** [str(e)] *)
Definition str `{Pydantic} (e : Exn) : string :=
  match e with
  | Error _ msg => msg
  | ValidationError errs => error_text errs
  | HTTPException code detail => pretty code +:+ ": " +:+ detail
  end.

(** ** Field validation (pydantic) *)

Definition Validator (A : Type) : Type := Value -> ErrorKind + A.

Definition Validated (A : Type) : Type := list FieldError + A.

Definition errors_of {A} (x : Validated A) : list FieldError :=
  match x with
  | inl errs => errs
  | inr _ => []
  end.

(** Two fields are checked independently; every failure is reported. *)
Definition both {A B} (x : Validated A) (y : Validated B) : Validated (A * B) :=
  match x, y with
  | inr a, inr b => inr (a, b)
  | _, _ => inl (errors_of x ++ errors_of y)
  end.

Infix "<&>" := both (at level 50, left associativity).

(** [f: T = Field(...)] *)
Definition required {A} (f : string) (v : Validator A) (m : Document) : Validated A :=
  match m !! f with
  | None => inl [mkFieldError f Missing]
  | Some x =>
      match v x with
      | inl k => inl [mkFieldError f k]
      | inr a => inr a
      end
  end.

(** [f: T = Field(default)] and [Field(default_factory=...)] *)
Definition defaulted {A} (f : string) (v : Validator A) (default : A) (m : Document)
  : Validated A :=
  match m !! f with
  | None => inr default
  | Some x =>
      match v x with
      | inl k => inl [mkFieldError f k]
      | inr a => inr a
      end
  end.

(** [str] *)
Definition v_str : Validator string := fun x =>
  match x with
  | VStr s => inr s
  | _ => inl WrongType
  end.

(** [str] with [min_length] and [max_length] *)
Definition v_str_bounded (min_length max_length : nat) : Validator string := fun x =>
  match x with
  | VStr s =>
      if (len s <? min_length)%nat then inl TooShort
      else if (max_length <? len s)%nat then inl TooLong
      else inr s
  | _ => inl WrongType
  end.

(** [Optional[T]] *)
Definition v_optional {A} (v : Validator A) : Validator (option A) := fun x =>
  match x with
  | VNull => inr None
  | _ =>
      match v x with
      | inl k => inl k
      | inr a => inr (Some a)
      end
  end.

Fixpoint v_all {A} (v : Validator A) (l : list Value) : ErrorKind + list A :=
  match l with
  | [] => inr []
  | x :: l' =>
      match v x, v_all v l' with
      | inr a, inr r => inr (a :: r)
      | inl k, _ => inl k
      | _, inl k => inl k
      end
  end.

(** [List[T]] *)
Definition v_list {A} (v : Validator A) : Validator (list A) := fun x =>
  match x with
  | VList l => v_all v l
  | _ => inl WrongType
  end.

(** [Dict[str, T]] *)
Definition v_dict {A} (v : Validator A) : Validator (gmap string A) := fun x =>
  match x with
  | VDict m =>
      let entries := map_to_list m in
      match v_all v entries.*2 with
      | inl k => inl k
      | inr vals => inr (list_to_map (zip entries.*1 vals))
      end
  | _ => inl WrongType
  end.

Definition accepted {A} (x : Validated A) : bool :=
  match x with
  | inr _ => true
  | inl _ => false
  end.

(** [EmailStr] *)
Definition v_email `{Pydantic} : Validator string := fun x =>
  match x with
  | VStr s =>
      match email_syntax s with
      | Some e => inr e
      | None => inl BadFormat
      end
  | _ => inl WrongType
  end.

(** [HttpUrl] *)
Definition v_http_url `{Pydantic} : Validator string := fun x =>
  match x with
  | VStr s =>
      match http_url_syntax s with
      | Some u => inr u
      | None => inl BadFormat
      end
  | _ => inl WrongType
  end.

(** ** schemas.py *)

Module PortfolioProfile.
Record t : Type := mk {
  name : string;
  role : string;
  bio : string;
  location : option string;
  avatar : option string;
  socials : gmap string (option string);
  skills : list string
}.
End PortfolioProfile.

Module PortfolioProject.
Record t : Type := mk {
  title : string;
  description : string;
  image : option string;
  tags : list string;
  url : option string;
  repo : option string
}.
End PortfolioProject.

Module ContactMessage.
Record t : Type := mk {
  name : string;
  email : string;
  message : string
}.
End ContactMessage.

Definition default_socials : gmap string (option string) :=
  list_to_map
    [("github", None); ("twitter", None); ("linkedin", None); ("website", None)].

(** The constructor applied to a dict unpacked as keyword arguments: keys
    that are no field of the model are ignored. *)
Definition validate_PortfolioProfile `{Pydantic} (doc : Document)
  : Validated PortfolioProfile.t :=
  match
    required "name" v_str doc
    <&> required "role" v_str doc
    <&> required "bio" v_str doc
    <&> defaulted "location" (v_optional v_str) None doc
    <&> defaulted "avatar" (v_optional v_http_url) None doc
    <&> defaulted "socials" (v_dict (v_optional v_str)) default_socials doc
    <&> defaulted "skills" (v_list v_str) [] doc
  with
  | inr (n, r, b, l, a, so, sk) => inr (PortfolioProfile.mk n r b l a so sk)
  | inl errs => inl errs
  end.

(** The same for a project document. *)
Definition validate_PortfolioProject `{Pydantic} (doc : Document)
  : Validated PortfolioProject.t :=
  match
    required "title" v_str doc
    <&> required "description" v_str doc
    <&> defaulted "image" (v_optional v_str) None doc
    <&> defaulted "tags" (v_list v_str) [] doc
    <&> defaulted "url" (v_optional v_http_url) None doc
    <&> defaulted "repo" (v_optional v_http_url) None doc
  with
  | inr (t, d, i, tg, u, r) => inr (PortfolioProject.mk t d i tg u r)
  | inl errs => inl errs
  end.

(** [ContactMessage] fields, from a dict. *)
Definition validate_ContactMessage `{Pydantic} (doc : Document)
  : Validated ContactMessage.t :=
  match
    required "name" v_str doc
    <&> required "email" v_email doc
    <&> required "message" (v_str_bounded 3 5000) doc
  with
  | inr (n, e, m) => inr (ContactMessage.mk n e m)
  | inl errs => inl errs
  end.

(** The JSON form of the models: every field is present, [None] is [null]. *)
Definition dump_PortfolioProfile (p : PortfolioProfile.t) : Document :=
  list_to_map
    [("name", VStr (PortfolioProfile.name p));
     ("role", VStr (PortfolioProfile.role p));
     ("bio", VStr (PortfolioProfile.bio p));
     ("location", of_optional_str (PortfolioProfile.location p));
     ("avatar", of_optional_str (PortfolioProfile.avatar p));
     ("socials", VDict (of_optional_str <$> PortfolioProfile.socials p));
     ("skills", VList (VStr <$> PortfolioProfile.skills p))].

Definition dump_PortfolioProject (p : PortfolioProject.t) : Document :=
  list_to_map
    [("title", VStr (PortfolioProject.title p));
     ("description", VStr (PortfolioProject.description p));
     ("image", of_optional_str (PortfolioProject.image p));
     ("tags", VList (VStr <$> PortfolioProject.tags p));
     ("url", of_optional_str (PortfolioProject.url p));
     ("repo", of_optional_str (PortfolioProject.repo p))].

Definition dump_ContactMessage (p : ContactMessage.t) : Document :=
  list_to_map
    [("name", VStr (ContactMessage.name p));
     ("email", VStr (ContactMessage.email p));
     ("message", VStr (ContactMessage.message p))].

(** ** Computations: state and exceptions

    A Python function is a function of the state it can see that either
    returns or raises; the state survives a raise, so that [try]/[except]
    resumes from whatever the body had done so far. *)

Inductive Res (A : Type) : Type :=
| Ok (a : A)
| Raise (e : Exn).
Arguments Ok {A} a.
Arguments Raise {A} e.

Definition Eff (S A : Type) : Type := S -> Res A * S.

#[global] Instance Eff_ret {S} : MRet (Eff S) := fun A a s => (Ok a, s).

#[global] Instance Eff_bind {S} : MBind (Eff S) := fun A B f m s =>
  match m s with
  | (Ok a, s') => f a s'
  | (Raise e, s') => (Raise e, s')
  end.

Definition raise {S A} (e : Exn) : Eff S A := fun s => (Raise e, s).

Definition try_except {S A} (body : Eff S A) (handler : Exn -> Eff S A) : Eff S A :=
  fun s =>
    match body s with
    | (Ok a, s') => (Ok a, s')
    | (Raise e, s') => handler e s'
    end.

Definition gets {S A} (f : S -> A) : Eff S A := fun s => (Ok (f s), s).

Definition modify {S} (f : S -> S) : Eff S unit := fun s => (Ok tt, f s).

(** [for x in xs: body(x)] *)
Fixpoint for_each {S A} (xs : list A) (body : A -> Eff S unit) : Eff S unit :=
  match xs with
  | [] => mret tt
  | x :: xs' => body x;; for_each xs' body
  end.

(** [results = []; for x in xs: results.append(f(x))] *)
Fixpoint for_append {S A B} (xs : list A) (f : A -> Eff S B) : Eff S (list B) :=
  match xs with
  | [] => mret []
  | x :: xs' => y ← f x; ys ← for_append xs' f; mret (y :: ys)
  end.

(** ** The document store *)

Inductive StoreOp : Type :=
| OpInsert (collection_name : string) (doc : Document)
| OpFind (collection_name : string) (limit : option nat)
| OpCount (collection_name : string)
| OpListNames.

(** A database as seen through its handle: each collection as the list of
    documents in the order the backend lists them, the counter identifiers
    are generated from, and the operations the backend currently refuses,
    with the message of the refusal. *)
Record Database : Type := mkDatabase {
  db_name : string;
  colls : gmap string (list Document);
  next_oid : N;
  fault : StoreOp -> option string
}.

(** The state of the process: the environment variable read by [/test], the
    module-level handle [db] ([None] when no connection was set up), and the
    operations sent to the store so far. *)
Record World : Type := mkWorld {
  DATABASE_URL : option string;
  db : option Database;
  trace : list StoreOp
}.

Abbreviation M := (Eff World).

Definition docs_of (d : Database) (collection_name : string) : list Document :=
  default [] (colls d !! collection_name).

Definition healthy (d : Database) : Prop := forall op, fault d op = None.

(** Sixteen to the [k] digits of [n], most significant first. *)
Fixpoint hex_digits (k : nat) (n : N) (acc : string) : string :=
  match k with
  | O => acc
  | S k' =>
      let c := default "0"%char
                 (String.get (N.to_nat (n mod 16)) "0123456789abcdef") in
      hex_digits k' (n / 16) (String c acc)
  end.

(** The textual form of a generated identifier: 24 hexadecimal digits. *)
Definition oid_string (n : N) : string := hex_digits 24 n "".

(** The operation [op] has been sent to the store. *)
Definition logged (op : StoreOp) (w : World) : World :=
  mkWorld (DATABASE_URL w) (db w) (trace w ++ [op]).

Definition with_db (d : Database) (w : World) : World :=
  mkWorld (DATABASE_URL w) (Some d) (trace w).

(** One operation on the handle: an exception of the caller's choice when
    there is no handle, otherwise the operation is sent (and logged), and the
    backend either refuses it or carries it out. *)
Definition send {A} (no_handle : Exn) (op : StoreOp) (run : Database -> A * Database)
  : M A := fun w =>
  match db w with
  | None => (Raise no_handle, w)
  | Some d =>
      match fault d op with
      | Some msg => (Raise (Error "StoreError" msg), logged op w)
      | None =>
          let '(a, d') := run d in
          (Ok a, with_db d' (logged op w))
      end
  end.

Definition insert_one (collection_name : string) (data : Document) (d : Database)
  : string * Database :=
  let _id := oid_string (next_oid d) in
  let stored := <["_id" := VStr _id]> data in
  (_id,
   mkDatabase (db_name d)
     (<[collection_name := docs_of d collection_name ++ [stored]]> (colls d))
     (next_oid d + 1)
     (fault d)).

Definition limited {A} (limit : option nat) (l : list A) : list A :=
  match limit with
  | Some n => take n l
  | None => l
  end.

Definition unavailable : Exn := Error "StoreError" "Database not available".

Definition not_subscriptable : Exn :=
  Error "TypeError" "'NoneType' object is not subscriptable".

Definition no_attribute : Exn :=
  Error "AttributeError" "'NoneType' object has no attribute 'list_collection_names'".

(** Modelled from the spec: [create_document] of [database.py], which is not
    among the sources.  "Inserts a new document; returns its generated
    identifier as a string.  Fails with a StoreError if the underlying
    connection is unavailable or the write is rejected."  The stored document
    carries the identifier under ["_id"]. *)
Definition create_document (collection_name : string) (data : Document) : M string :=
  send unavailable (OpInsert collection_name data) (insert_one collection_name data).

(** Modelled from the spec: [get_documents] of [database.py], which is not
    among the sources.  "Returns up to [limit] documents [...].  Returns an
    empty sequence, never an error, when the collection has no documents." *)
Definition get_documents (collection_name : string) (limit : option nat)
  : M (list Document) :=
  send unavailable (OpFind collection_name limit)
    (fun d => (limited limit (docs_of d collection_name), d)).

(** [db[collection_name].count_documents({})] *)
Definition count_documents (collection_name : string) : M Z :=
  send not_subscriptable (OpCount collection_name)
    (fun d => (Z.of_nat (length (docs_of d collection_name)), d)).

(** [db.list_collection_names()] *)
Definition list_collection_names : M (list string) :=
  send no_attribute OpListNames (fun d => ((map_to_list (colls d)).*1, d)).

(** Modelled from the spec: the start of the process in [database.py], which
    is not among the sources.  "A database connection string [...] read from
    process environment at startup; absence of the connection string must not
    crash the process": without a connection string there is no handle. *)
Definition startup (connection_string : option string) (backend : Database) : World :=
  match connection_string with
  | Some (String _ _) => mkWorld connection_string (Some backend) []
  | _ => mkWorld connection_string None []
  end.

(** [os.getenv("DATABASE_URL")] in a condition: unset and empty are false. *)
Definition getenv_DATABASE_URL : M bool :=
  gets (fun w =>
          match DATABASE_URL w with
          | Some (String _ _) => true
          | _ => false
          end).

(** ** main.py *)

(** [root] *)
Definition root : M Value :=
  mret (VDict {["message" := VStr "Portfolio API is running"]}).

(** The [status] dict of [test_database]. *)
Record Status : Type := mkStatus {
  backend : string;
  database : string;
  database_url : string;
  database_name : string;
  connection_status : string;
  collections : list string
}.

Definition set_database (v : string) (s : Status) : Status :=
  mkStatus (backend s) v (database_url s) (database_name s)
    (connection_status s) (collections s).

Definition set_database_url (v : string) (s : Status) : Status :=
  mkStatus (backend s) (database s) v (database_name s)
    (connection_status s) (collections s).

Definition set_database_name (v : string) (s : Status) : Status :=
  mkStatus (backend s) (database s) (database_url s) v
    (connection_status s) (collections s).

Definition set_connection_status (v : string) (s : Status) : Status :=
  mkStatus (backend s) (database s) (database_url s) (database_name s)
    v (collections s).

Definition set_collections (v : list string) (s : Status) : Status :=
  mkStatus (backend s) (database s) (database_url s) (database_name s)
    (connection_status s) v.

(** A function body with a local dict: the dict is a second component of the
    state, assignments to its keys survive an exception raised later. *)
Definition Local (L A : Type) : Type := Eff (L * World) A.

Definition global {L A} (m : M A) : Local L A := fun '(l, w) =>
  let '(r, w') := m w in (r, (l, w')).

Definition assign {L} (f : L -> L) : Local L unit :=
  modify (fun '(l, w) => (f l, w)).

Definition with_local {L A} (init : L) (body : Local L A) : M A := fun w =>
  let '(r, (_, w')) := body (init, w) in (r, w').

(** [test_database] *)
Definition test_database `{Pydantic} : M Status :=
  with_local
    (mkStatus "✅ Running" "❌ Not Available" "❌ Not Set" "❌ Not Set"
       "Not Connected" [])
    (try_except
       (handle ← global (gets db);
        match handle with
        | Some d =>
            assign (set_database "✅ Available");;
            is_set ← global getenv_DATABASE_URL;
            assign (set_database_url (if is_set : bool then "✅ Set" else "❌ Not Set"));;
            assign (set_database_name (db_name d));;
            assign (set_connection_status "Connected");;
            try_except
              (names ← global list_collection_names;
               assign (set_collections (take 10 names));;
               assign (set_database "✅ Connected & Working"))
              (fun e =>
                 assign (set_database
                           ("⚠️ Connected but Error: " +:+ prefix 80 (str e))))
        | None => mret tt
        end)
       (fun e => assign (set_database ("❌ Error: " +:+ prefix 120 (str e))));;
     gets fst).

(** [get_profile] *)
Definition get_profile `{Pydantic} : M (option PortfolioProfile.t) :=
  docs ← get_documents "portfolioprofile" (Some 1);
  match docs with
  | [] => mret None
  | doc :: _ =>
      let doc := delete "_id" doc in
      match validate_PortfolioProfile doc with
      | inr p => mret (Some p)
      | inl errs => raise (ValidationError errs)
      end
  end.

(** [list_projects] *)
Definition list_projects `{Pydantic} : M (list PortfolioProject.t) :=
  items ← get_documents "portfolioproject" None;
  for_append items
    (fun d =>
       let d := delete "_id" d in
       match validate_PortfolioProject d with
       | inr p => mret p
       | inl errs => raise (ValidationError errs)
       end).

Definition ok_true : Document := {["ok" := VBool true]}.

(** [submit_contact] *)
Definition submit_contact `{Pydantic} (payload : ContactMessage.t) : M Value :=
  try_except
    (_id ← create_document "contactmessage" (dump_ContactMessage payload);
     mret (VDict (<["id" := VStr _id]> ok_true)))
    (fun e => raise (HTTPException 500 (str e))).

Record SeedRequest : Type := mkSeedRequest { with_demo : bool }.

Definition demo_profile : Document :=
  list_to_map
    [("name", VStr "Legas Yasin");
     ("role", VStr "Web Developer");
     ("bio", VStr "I build vibrant, modern, and high-performance web experiences.");
     ("location", VStr "Addis Ababa, Ethiopia");
     ("avatar", VNull);
     ("socials",
      VDict (list_to_map
               [("github", VStr "https://github.com/");
                ("twitter", VNull);
                ("linkedin", VStr "https://www.linkedin.com/");
                ("website", VStr "https://example.com")]));
     ("skills",
      VList [VStr "React"; VStr "Tailwind CSS"; VStr "Framer Motion";
             VStr "FastAPI"; VStr "MongoDB"])].

Definition demo_project (title description image : string) (tags : list string)
  : Document :=
  list_to_map
    [("title", VStr title);
     ("description", VStr description);
     ("image", VStr image);
     ("tags", VList (VStr <$> tags));
     ("url", VNull);
     ("repo", VNull)].

Definition sample : list Document :=
  [demo_project "ColorSplash Landing"
     "Vibrant landing page with animated gradients and responsive design."
     "/images/project-1.jpg" ["React"; "Tailwind"];
   demo_project "Portfolio Grid"
     "Masonry grid of projects with smooth hover effects and modals."
     "/images/project-2.jpg" ["React"; "Framer Motion"];
   demo_project "API Dashboard"
     "Clean dashboard consuming REST APIs with reusable components."
     "/images/project-3.jpg" ["React"; "API"]].

Definition when {S} (c : bool) (body : Eff S unit) : Eff S unit :=
  if c then body else mret tt.

(** [seed_content] *)
Definition seed_content `{Pydantic} (req : SeedRequest) : M Value :=
  try_except
    (when (with_demo req)
       (n ← count_documents "portfolioprofile";
        when (n =? 0)%Z
          (create_document "portfolioprofile" demo_profile;; mret tt);;
        k ← count_documents "portfolioproject";
        when (k =? 0)%Z
          (for_each sample
             (fun p => create_document "portfolioproject" p;; mret tt)));;
     mret (VDict ok_true))
    (fun e => raise (HTTPException 500 (str e))).

(** ** The HTTP boundary (FastAPI)

    What leaves the process for one request: a JSON response, or an
    exception that no handler caught. *)

Inductive Response : Type :=
| JSONResponse (status_code : Z) (content : Value)
| Unhandled (e : Exn).

(** An endpoint function is run; its return value is serialised with status
    200, an [HTTPException] becomes the response it describes, any other
    exception leaves the endpoint function uncaught. *)
Definition respond {A} (serialise : A -> Value) (endpoint : M A)
  : World -> Response * World := fun w =>
  match endpoint w with
  | (Ok a, w') => (JSONResponse 200 (serialise a), w')
  | (Raise (HTTPException code detail), w') =>
      (JSONResponse code (VDict {["detail" := VStr detail]}), w')
  | (Raise e, w') => (Unhandled e, w')
  end.

Definition error_value (e : FieldError) : Value :=
  VDict (list_to_map
           [("loc", VList [VStr "body"; VStr (loc e)]);
            ("type",
             VStr match kind e with
                  | Missing => "missing"
                  | WrongType => "type"
                  | TooShort => "too_short"
                  | TooLong => "too_long"
                  | BadFormat => "value_error"
                  end)]).

(** The response to a request whose body does not fit the declared model;
    the endpoint function is not called. *)
Definition unprocessable (errs : list FieldError) : Response :=
  JSONResponse 422 (VDict {["detail" := VList (error_value <$> errs)]}).

Definition status_dict (s : Status) : Value :=
  VDict (list_to_map
           [("backend", VStr (backend s));
            ("database", VStr (database s));
            ("database_url", VStr (database_url s));
            ("database_name", VStr (database_name s));
            ("connection_status", VStr (connection_status s));
            ("collections", VList (VStr <$> collections s))]).

Definition profile_json (r : option PortfolioProfile.t) : Value :=
  match r with
  | Some p => VDict (dump_PortfolioProfile p)
  | None => VNull
  end.

Definition projects_json (r : list PortfolioProject.t) : Value :=
  VList ((fun p => VDict (dump_PortfolioProject p)) <$> r).

(** GET / *)
Definition GET_root : World -> Response * World := respond id root.

(** GET /test *)
Definition GET_test `{Pydantic} : World -> Response * World :=
  respond status_dict test_database.

(** GET /api/profile *)
Definition GET_api_profile `{Pydantic} : World -> Response * World :=
  respond profile_json get_profile.

(** GET /api/projects *)
Definition GET_api_projects `{Pydantic} : World -> Response * World :=
  respond projects_json list_projects.

(** The request body against [ContactIn], which adds nothing to
    [ContactMessage]. *)
Definition parse_ContactIn `{Pydantic} (body : Value) : Validated ContactMessage.t :=
  match body with
  | VDict m => validate_ContactMessage m
  | _ => inl [mkFieldError "" WrongType]
  end.

(** POST /api/contact *)
Definition POST_api_contact `{Pydantic} (body : Value) : World -> Response * World :=
  fun w =>
    match parse_ContactIn body with
    | inr payload => respond id (submit_contact payload) w
    | inl errs => (unprocessable errs, w)
    end.

(** POST /api/seed, with the body already read as a [SeedRequest]. *)
Definition POST_api_seed `{Pydantic} (req : SeedRequest) : World -> Response * World :=
  respond id (seed_content req).

(** [bool] *)
Definition v_bool `{Pydantic} : Validator bool := fun x =>
  match x with
  | VBool b => inr b
  | _ =>
      match lax_bool x with
      | Some b => inr b
      | None => inl WrongType
      end
  end.

(** The request body against [SeedRequest]: [with_demo: bool = True]. *)
Definition parse_SeedRequest `{Pydantic} (body : Value) : Validated SeedRequest :=
  match body with
  | VDict m =>
      match defaulted "with_demo" v_bool true m with
      | inr b => inr (mkSeedRequest b)
      | inl errs => inl errs
      end
  | _ => inl [mkFieldError "" WrongType]
  end.

(** POST /api/seed, from the request body: as for the contact form, a body
    that does not fit the declared model is answered before the endpoint
    function runs. *)
Definition POST_api_seed_json `{Pydantic} (body : Value) : World -> Response * World :=
  fun w =>
    match parse_SeedRequest body with
    | inr req => POST_api_seed req w
    | inl errs => (unprocessable errs, w)
    end.

(** What the profile endpoint serves for a stored [avatar]: the URL as the
    syntax check normalised it, [null] when there is none. *)
Definition served_url `{Pydantic} (stored : option Value) : Value :=
  match stored with
  | Some (VStr s) => of_optional_str (http_url_syntax s)
  | _ => VNull
  end.

(** The keys of a served profile. *)
Definition profile_keys : gset string :=
  list_to_set ["name"; "role"; "bio"; "location"; "avatar"; "socials"; "skills"].

(** ** A concrete instance of the library interface, for running examples *)

Definition contains (c : string) (s : string) : bool :=
  match index 0 c s with
  | Some _ => true
  | None => false
  end.

(** One [@], something before it, and a dotted domain after it. *)
Definition plain_email (s : string) : option string :=
  match index 0 "@" s with
  | Some (S i) =>
      let domain := substring (S (S i)) (String.length s) s in
      if contains "." domain && negb (contains "@" domain) && negb (contains " " s)
      then Some s else None
  | _ => None
  end.

Definition plain_http_url (s : string) : option string :=
  if String.prefix "http://" s || String.prefix "https://" s then Some s else None.

Definition plain_bool (x : Value) : option bool :=
  match x with
  | VInt 0 => Some false
  | VInt 1 => Some true
  | VStr "false" => Some false
  | VStr "true" => Some true
  | _ => None
  end.

#[local] Instance plain : Pydantic := {
  email_syntax := plain_email;
  http_url_syntax := plain_http_url;
  lax_bool := plain_bool;
  error_text := fun errs => pretty (length errs) +:+ " validation errors"
}.

Definition no_fault : StoreOp -> option string := fun _ => None.

Definition empty_db : Database := mkDatabase "portfolio" ∅ 0 no_fault.

(** The process started with a connection string, on an empty database. *)
Definition connected : World := startup (Some "mongodb://localhost:27017") empty_db.

(** The process started without a connection string. *)
Definition degraded : World := startup None empty_db.

Definition hello_fields : Document :=
  list_to_map
    [("name", VStr "Ada");
     ("email", VStr "ada@example.com");
     ("message", VStr "Hello there")].

(** A well-formed contact request body. *)
Definition hello : Value := VDict hello_fields.

(** A contact request body with a two-character message. *)
Definition terse_fields : Document := <["message" := VStr "éé"]> hello_fields.

(** A profile document whose name is the empty string. *)
Definition anonymous : Document :=
  list_to_map [("name", VStr ""); ("role", VStr "Developer"); ("bio", VStr "Hello")].

(** A profile document without a bio, as stored. *)
Definition incomplete : Document :=
  list_to_map
    [("_id", VStr (oid_string 0)); ("name", VStr "Ada"); ("role", VStr "Developer")].

Definition incomplete_db : Database :=
  mkDatabase "portfolio" {["portfolioprofile" := [incomplete]]} 1 no_fault.

Definition incomplete_world : World :=
  startup (Some "mongodb://localhost:27017") incomplete_db.

(** The database after a seed that found both collections empty. *)
Definition seeded (d : Database) : Database :=
  fold_left (fun d p => (insert_one "portfolioproject" p d).2) sample
    (insert_one "portfolioprofile" demo_profile d).2.

(** The process connected to a database that has been seeded. *)
Definition seeded_world : World :=
  startup (Some "mongodb://localhost:27017") (seeded empty_db).

(** ** What a seed does to a database, one guarded block at a time *)

Definition seed_profile_step (d : Database) : Database :=
  match docs_of d "portfolioprofile" with
  | [] => (insert_one "portfolioprofile" demo_profile d).2
  | _ :: _ => d
  end.

Definition seed_projects_step (d : Database) : Database :=
  match docs_of d "portfolioproject" with
  | [] => fold_left (fun d p => (insert_one "portfolioproject" p d).2) sample d
  | _ :: _ => d
  end.

(** The demo content as the schemas read it back. *)
Definition demo_profile_model : PortfolioProfile.t :=
  PortfolioProfile.mk "Legas Yasin" "Web Developer"
    "I build vibrant, modern, and high-performance web experiences."
    (Some "Addis Ababa, Ethiopia") None
    (list_to_map
       [("github", Some "https://github.com/");
        ("twitter", None);
        ("linkedin", Some "https://www.linkedin.com/");
        ("website", Some "https://example.com")])
    ["React"; "Tailwind CSS"; "Framer Motion"; "FastAPI"; "MongoDB"].

Definition demo_project_model (title description image : string) (tags : list string)
  : PortfolioProject.t :=
  PortfolioProject.mk title description (Some image) tags None None.

Definition sample_models : list PortfolioProject.t :=
  [demo_project_model "ColorSplash Landing"
     "Vibrant landing page with animated gradients and responsive design."
     "/images/project-1.jpg" ["React"; "Tailwind"];
   demo_project_model "Portfolio Grid"
     "Masonry grid of projects with smooth hover effects and modals."
     "/images/project-2.jpg" ["React"; "Framer Motion"];
   demo_project_model "API Dashboard"
     "Clean dashboard consuming REST APIs with reusable components."
     "/images/project-3.jpg" ["React"; "API"]].

(** ** More concrete states and requests *)

Fixpoint letters (n : nat) : string :=
  match n with
  | O => ""
  | S n' => String "a" (letters n')
  end.

Fixpoint euros (n : nat) : string :=
  match n with
  | O => ""
  | S n' => "€" +:+ euros n'
  end.

(** A contact request body with a message of 2000 characters of three bytes
    each. *)
Definition pricey_fields : Document :=
  <["message" := VStr (euros 2000)]> hello_fields.

(** A contact request body with a message of 5001 characters. *)
Definition verbose_fields : Document :=
  <["message" := VStr (letters (S 5000))]> hello_fields.

(** A backend that refuses to store any document titled [title]. *)
Definition refusing (title : string) : StoreOp -> option string := fun op =>
  match op with
  | OpInsert _ doc =>
      match doc !! "title" with
      | Some (VStr t) => if String.eqb t title then Some "write refused" else None
      | _ => None
      end
  | _ => None
  end.

Definition picky_db : Database := mkDatabase "portfolio" ∅ 0 (refusing "Portfolio Grid").

Definition picky_world : World := startup (Some "mongodb://localhost:27017") picky_db.

(** A backend that refuses to list its collections. *)
Definition unlisted_db : Database :=
  mkDatabase "portfolio" ∅ 0
    (fun op => match op with OpListNames => Some "accès refusé" | _ => None end).

Definition unlisted_world : World :=
  startup (Some "mongodb://localhost:27017") unlisted_db.

(** A project collection whose second document has no description. *)
Definition untitled : Document :=
  list_to_map [("_id", VStr (oid_string 1)); ("title", VStr "Draft")].

Definition mixed_db : Database :=
  mkDatabase "portfolio"
    {["portfolioproject" :=
        [<["_id" := VStr (oid_string 0)]>
           (demo_project "Portfolio Grid" "Masonry grid" "/images/project-2.jpg"
              ["React"]);
         untitled]]}
    2 no_fault.

Definition mixed_world : World := startup (Some "mongodb://localhost:27017") mixed_db.

(** A profile document with the required fields only. *)
Definition minimal : Document :=
  list_to_map [("name", VStr "Ada"); ("role", VStr "Developer"); ("bio", VStr "Hello")].

(** A project document with the required fields only. *)
Definition bare_project : Document :=
  list_to_map [("title", VStr "Draft"); ("description", VStr "Work in progress")].

(** An endpoint that sends at most one operation to the store and changes
    nothing in it. *)
Definition read_only (endpoint : World -> Response * World) : Prop :=
  forall w, (endpoint w).2 = w \/ exists op, (endpoint w).2 = logged op w.

(** The seeded database with a second profile document behind the first. *)
Definition crowded_db : Database :=
  mkDatabase "portfolio"
    (<["portfolioprofile" := docs_of (seeded empty_db) "portfolioprofile" ++ [anonymous]]>
       (colls (seeded empty_db)))
    5 no_fault.

Definition crowded_world : World := startup (Some "mongodb://localhost:27017") crowded_db.

(** A database whose only profile document has the required fields only. *)
Definition minimal_db : Database :=
  mkDatabase "portfolio"
    {["portfolioprofile" := [<["_id" := VStr (oid_string 0)]> minimal]]} 1 no_fault.

Definition minimal_world : World := startup (Some "mongodb://localhost:27017") minimal_db.

(** * Properties *)

(** ** Running computations *)

Section Effects.
Context {S : Type}.

Lemma bind_ok {A B} (m : Eff S A) (k : A -> Eff S B) s a s' :
  m s = (Ok a, s') -> (m ≫= k) s = k a s'.
Proof. intros E. unfold mbind, Eff_bind. by rewrite E. Qed.

Lemma bind_raise {A B} (m : Eff S A) (k : A -> Eff S B) s e s' :
  m s = (Raise e, s') -> (m ≫= k) s = (Raise e, s').
Proof. intros E. unfold mbind, Eff_bind. by rewrite E. Qed.

Lemma try_ok {A} (m : Eff S A) h s a s' :
  m s = (Ok a, s') -> try_except m h s = (Ok a, s').
Proof. intros E. unfold try_except. by rewrite E. Qed.

Lemma try_raise {A} (m : Eff S A) h s e s' :
  m s = (Raise e, s') -> try_except m h s = h e s'.
Proof. intros E. unfold try_except. by rewrite E. Qed.

(** A handler that returns makes the whole statement return. *)
Lemma try_returns {A} (m : Eff S A) h s :
  (forall e s1, exists a s2, h e s1 = (Ok a, s2)) ->
  exists a s', try_except m h s = (Ok a, s').
Proof.
  intros Hh. unfold try_except.
  destruct (m s) as [[a|e] s1]; [by eexists _, _ | apply Hh].
Qed.

(** A handler that only ever raises HTTP errors leaves nothing else. *)
Lemma try_http {A} (m : Eff S A) (text : Exn -> string) s :
  (exists a s', try_except m (fun e => raise (HTTPException 500 (text e))) s
                = (Ok a, s'))
  \/ (exists detail s',
        try_except m (fun e => raise (HTTPException 500 (text e))) s
        = (Raise (HTTPException 500 detail), s')).
Proof.
  unfold try_except, raise.
  destruct (m s) as [[a|e] s1]; [left | right]; by eexists _, _.
Qed.
End Effects.

(** ** The store *)

Lemma hex_digits_length k n acc :
  String.length (hex_digits k n acc) = (k + String.length acc)%nat.
Proof.
  revert n acc. induction k as [|k IH]; intros n acc; simpl; [done|].
  rewrite IH. simpl. lia.
Qed.

Lemma oid_string_length n : String.length (oid_string n) = 24%nat.
Proof. unfold oid_string. by rewrite hex_digits_length. Qed.

Lemma oid_string_nonempty n : oid_string n <> "".
Proof.
  intros E. pose proof (oid_string_length n) as L. rewrite E in L. discriminate.
Qed.

Section Send.
Context {A : Type} (no_handle : Exn) (op : StoreOp) (run : Database -> A * Database).

Lemma send_no_handle w :
  db w = None -> send no_handle op run w = (Raise no_handle, w).
Proof. intros E. unfold send. by rewrite E. Qed.

Lemma send_refused w d msg :
  db w = Some d -> fault d op = Some msg ->
  send no_handle op run w = (Raise (Error "StoreError" msg), logged op w).
Proof. intros E F. unfold send. by rewrite E, F. Qed.

Lemma send_done w d :
  db w = Some d -> fault d op = None ->
  send no_handle op run w = (Ok (run d).1, with_db (run d).2 (logged op w)).
Proof. intros E F. unfold send. rewrite E, F. by destruct (run d). Qed.
End Send.

Lemma docs_of_insert_one c data d :
  docs_of (insert_one c data d).2 c
  = docs_of d c ++ [<["_id" := VStr (oid_string (next_oid d))]> data].
Proof. unfold docs_of, insert_one. simpl. by rewrite lookup_insert_eq. Qed.

Lemma docs_of_insert_one_ne c c' data d :
  c <> c' -> docs_of (insert_one c data d).2 c' = docs_of d c'.
Proof. intros N. unfold docs_of, insert_one. simpl. by rewrite lookup_insert_ne. Qed.

Lemma healthy_insert_one c data d : healthy d -> healthy (insert_one c data d).2.
Proof. intros Hd op. apply Hd. Qed.

(** ** Validation *)

Lemma both_inr {A B} (x : Validated A) (y : Validated B) a b :
  x <&> y = inr (a, b) <-> x = inr a /\ y = inr b.
Proof.
  unfold both. destruct x, y; split; try done; intros E; try (by destruct E).
  - by inversion E.
  - destruct E as [E1 E2]. by inversion E1; inversion E2.
Qed.

Lemma both_inl_l {A B} (x : Validated A) (y : Validated B) errs :
  x = inl errs -> exists errs', x <&> y = inl errs'.
Proof. intros ->. unfold both. by eexists. Qed.

Lemma both_inl_r {A B} (x : Validated A) (y : Validated B) errs :
  y = inl errs -> exists errs', x <&> y = inl errs'.
Proof. intros ->. unfold both. destruct x; by eexists. Qed.

Lemma required_str_inr f doc s :
  required f v_str doc = inr s <-> doc !! f = Some (VStr s).
Proof.
  unfold required. split.
  - destruct (doc !! f) as [v|]; [|done].
    destruct v; simpl; try done. by intros [= ->].
  - by intros ->.
Qed.

Lemma required_missing {A} f (v : Validator A) doc :
  doc !! f = None -> required f v doc = inl [mkFieldError f Missing].
Proof. intros E. unfold required. by rewrite E. Qed.

(** ** The contact form *)

Section Contact.
Context `{Pydantic}.

Lemma contact_short_message (m : Document) msg :
  m !! "message" = Some (VStr msg) -> (len msg < 3)%nat ->
  exists errs, validate_ContactMessage m = inl errs.
Proof.
  intros Em L. unfold validate_ContactMessage.
  assert (E : required "message" (v_str_bounded 3 5000) m
              = inl [mkFieldError "message" TooShort]).
  { unfold required, v_str_bounded. rewrite Em.
    destruct (Nat.ltb_spec (len msg) 3); [done | lia]. }
  destruct (both_inl_r
              (required "name" v_str m <&> required "email" v_email m) _ _ E)
    as [errs ->].
  by eexists.
Qed.

Lemma contact_bad_email (m : Document) e :
  m !! "email" = Some (VStr e) -> email_syntax e = None ->
  exists errs, validate_ContactMessage m = inl errs.
Proof.
  intros Em S. unfold validate_ContactMessage.
  assert (E : required "email" v_email m = inl [mkFieldError "email" BadFormat]).
  { unfold required, v_email. by rewrite Em, S. }
  destruct (both_inl_r (required "name" v_str m) _ _ E) as [errs1 E1].
  destruct (both_inl_l _ (required "message" (v_str_bounded 3 5000) m) _ E1)
    as [errs ->].
  by eexists.
Qed.

Lemma contact_valid (m : Document) n e e' msg :
  m !! "name" = Some (VStr n) ->
  m !! "email" = Some (VStr e) -> email_syntax e = Some e' ->
  m !! "message" = Some (VStr msg) ->
  (3 <= len msg <= 5000)%nat ->
  validate_ContactMessage m = inr (ContactMessage.mk n e' msg).
Proof.
  intros En Ee S Em [L1 L2].
  unfold validate_ContactMessage, required, v_str, v_email, v_str_bounded.
  rewrite En, Ee, S, Em.
  destruct (Nat.ltb_spec (len msg) 3); [lia|].
  destruct (Nat.ltb_spec 5000 (len msg)); [lia|].
  done.
Qed.

(** C2.  A body whose message has fewer than three characters, or whose
    email the syntax check refuses, is answered with status 422 before the
    endpoint function runs: the process state, and with it the store and
    the log of store operations, is exactly what it was. *)
Theorem contact_invalid_rejected (m : Document) (w : World) :
  (exists msg, m !! "message" = Some (VStr msg) /\ (len msg < 3)%nat)
  \/ (exists e, m !! "email" = Some (VStr e) /\ email_syntax e = None) ->
  exists errs, POST_api_contact (VDict m) w = (unprocessable errs, w).
Proof.
  intros Hbad.
  assert (exists errs, validate_ContactMessage m = inl errs) as [errs E].
  { destruct Hbad as [(msg & Em & L) | (e & Ee & S)].
    - by eapply contact_short_message.
    - by eapply contact_bad_email. }
  exists errs. unfold POST_api_contact, parse_ContactIn. by rewrite E.
Qed.
End Contact.

(** ** The profile schema *)

Section Profile.
Context `{Pydantic}.

Lemma profile_required_fields (doc : Document) (p : PortfolioProfile.t) :
  validate_PortfolioProfile doc = inr p ->
  doc !! "name" = Some (VStr (PortfolioProfile.name p))
  /\ doc !! "role" = Some (VStr (PortfolioProfile.role p))
  /\ doc !! "bio" = Some (VStr (PortfolioProfile.bio p)).
Proof.
  unfold validate_PortfolioProfile.
  match goal with |- match ?x with _ => _ end = _ -> _ => destruct x as [?|t] eqn:E end;
    [done|].
  destruct t as [[[[[[n r] b] l] a] so] sk]. intros [= <-]. simpl.
  repeat (apply both_inr in E; destruct E as [E ?]).
  by rewrite <- !required_str_inr.
Qed.

(** C8, as amended.  A profile the schema accepts has a string under
    [name], and that string is the name of the validated record; nothing is
    required of its length. *)
Theorem profile_name_is_a_string (doc : Document) (p : PortfolioProfile.t) :
  validate_PortfolioProfile doc = inr p ->
  exists s, doc !! "name" = Some (VStr s) /\ PortfolioProfile.name p = s.
Proof.
  intros E. apply profile_required_fields in E as (En & _ & _). by eexists.
Qed.

Lemma profile_missing_field (doc : Document) :
  doc !! "name" = None \/ doc !! "role" = None \/ doc !! "bio" = None ->
  exists errs, validate_PortfolioProfile doc = inl errs.
Proof.
  intros Hm. destruct (validate_PortfolioProfile doc) as [errs|p] eqn:E;
    [by eexists|].
  apply profile_required_fields in E as (En & Er & Eb).
  destruct Hm as [N | [N | N]]; congruence.
Qed.
End Profile.

(** ** Store operations, run *)

Lemma create_document_run c data w d :
  db w = Some d -> fault d (OpInsert c data) = None ->
  create_document c data w
  = (Ok (oid_string (next_oid d)),
     with_db (insert_one c data d).2 (logged (OpInsert c data) w)).
Proof. intros E F. unfold create_document. by rewrite (send_done _ _ _ w d E F). Qed.

Lemma get_documents_run c limit w d :
  db w = Some d -> fault d (OpFind c limit) = None ->
  get_documents c limit w
  = (Ok (limited limit (docs_of d c)), with_db d (logged (OpFind c limit) w)).
Proof. intros E F. unfold get_documents. by rewrite (send_done _ _ _ w d E F). Qed.

Lemma count_documents_run c w d :
  db w = Some d -> fault d (OpCount c) = None ->
  count_documents c w
  = (Ok (Z.of_nat (length (docs_of d c))), with_db d (logged (OpCount c) w)).
Proof. intros E F. unfold count_documents. by rewrite (send_done _ _ _ w d E F). Qed.

Lemma count_is_zero {A} (l : list A) :
  (Z.of_nat (length l) =? 0)%Z = match l with [] => true | _ => false end.
Proof.
  destruct l; [done|]. simpl length.
  by destruct (Z.eqb_spec (Z.of_nat (S (length l))) 0); [lia|].
Qed.

Lemma create_each_run c (l : list Document) url d tr :
  healthy d ->
  for_each l (fun p => create_document c p;; mret tt) (mkWorld url (Some d) tr)
  = (Ok tt,
     mkWorld url (Some (fold_left (fun d p => (insert_one c p d).2) l d))
       (tr ++ (OpInsert c <$> l))).
Proof.
  revert d tr. induction l as [|p l IH]; intros d tr Hd; simpl.
  - by rewrite app_nil_r.
  - erewrite bind_ok; last first.
    { erewrite bind_ok; [reflexivity|]. by apply create_document_run. }
    unfold with_db, logged. simpl.
    rewrite IH by by apply healthy_insert_one.
    by rewrite <- app_assoc.
Qed.

Lemma seeded_profiles d :
  docs_of (seeded d) "portfolioprofile"
  = docs_of d "portfolioprofile"
    ++ [<["_id" := VStr (oid_string (next_oid d))]> demo_profile].
Proof.
  unfold seeded, sample. cbn [fold_left].
  rewrite !docs_of_insert_one_ne by done. apply docs_of_insert_one.
Qed.

Lemma seeded_projects d :
  length (docs_of (seeded d) "portfolioproject")
  = (length (docs_of d "portfolioproject") + 3)%nat.
Proof.
  unfold seeded, sample. cbn [fold_left].
  rewrite !docs_of_insert_one, !length_app. cbn [length].
  rewrite docs_of_insert_one_ne by done. lia.
Qed.

Lemma healthy_seeded d : healthy d -> healthy (seeded d).
Proof. intros Hd op. apply Hd. Qed.

(** ** Seeding *)

Section Seed.
Context `{Pydantic}.

Lemma seed_content_fresh url d tr :
  healthy d ->
  docs_of d "portfolioprofile" = [] -> docs_of d "portfolioproject" = [] ->
  seed_content (mkSeedRequest true) (mkWorld url (Some d) tr)
  = (Ok (VDict ok_true),
     mkWorld url (Some (seeded d))
       (tr ++ [OpCount "portfolioprofile";
               OpInsert "portfolioprofile" demo_profile;
               OpCount "portfolioproject"]
           ++ (OpInsert "portfolioproject" <$> sample))).
Proof.
  intros Hd Hp Hq. unfold seed_content. apply try_ok.
  cbn [with_demo when].
  erewrite bind_ok; last first.
  { erewrite bind_ok; [|by apply count_documents_run].
    rewrite count_is_zero, Hp. cbn [when].
    erewrite bind_ok; last first.
    { erewrite bind_ok; [reflexivity|]. by apply create_document_run. }
    erewrite bind_ok; [|by apply count_documents_run, healthy_insert_one].
    rewrite count_is_zero, docs_of_insert_one_ne, Hq by done. cbn [when].
    unfold with_db, logged. cbn [DATABASE_URL db trace].
    by rewrite create_each_run by by apply healthy_insert_one. }
  unfold seeded. by rewrite <- !app_assoc.
Qed.

Lemma seed_content_populated url d tr :
  healthy d ->
  docs_of d "portfolioprofile" <> [] -> docs_of d "portfolioproject" <> [] ->
  seed_content (mkSeedRequest true) (mkWorld url (Some d) tr)
  = (Ok (VDict ok_true),
     mkWorld url (Some d)
       (tr ++ [OpCount "portfolioprofile"; OpCount "portfolioproject"])).
Proof.
  intros Hd Hp Hq. unfold seed_content. apply try_ok.
  cbn [with_demo when].
  erewrite bind_ok; last first.
  { erewrite bind_ok; [|by apply count_documents_run].
    rewrite count_is_zero.
    destruct (docs_of d "portfolioprofile") as [|p ps] eqn:Ep; [done|].
    cbn [when].
    erewrite bind_ok; [|reflexivity].
    erewrite bind_ok; [|by apply count_documents_run].
    rewrite count_is_zero.
    destruct (docs_of d "portfolioproject") as [|q qs] eqn:Eq; [done|].
    reflexivity. }
  unfold with_db, logged, mret, Eff_ret. cbn [DATABASE_URL db trace].
  by rewrite <- app_assoc.
Qed.

(** C3.  On a connected store that refuses nothing and whose profile and
    project collections are empty, two seed requests in a row both answer
    [ok]; the first inserts the demo profile and the three demo projects,
    the second only counts the two collections and inserts nothing, so one
    profile and three projects are stored in the end. *)
Theorem seed_twice (w : World) (d : Database) :
  db w = Some d -> healthy d ->
  docs_of d "portfolioprofile" = [] -> docs_of d "portfolioproject" = [] ->
  exists w1 w2 d',
    POST_api_seed (mkSeedRequest true) w = (JSONResponse 200 (VDict ok_true), w1)
    /\ POST_api_seed (mkSeedRequest true) w1
       = (JSONResponse 200 (VDict ok_true), w2)
    /\ db w1 = Some d' /\ db w2 = Some d'
    /\ trace w2 = trace w1 ++ [OpCount "portfolioprofile"; OpCount "portfolioproject"]
    /\ length (docs_of d' "portfolioprofile") = 1%nat
    /\ length (docs_of d' "portfolioproject") = 3%nat.
Proof.
  intros E Hd Hp Hq. destruct w as [url o tr]. simpl in E. subst o.
  pose proof (seeded_profiles d) as Sp. rewrite Hp in Sp.
  pose proof (seeded_projects d) as Sq. rewrite Hq in Sq.
  eexists _, _, (seeded d). unfold POST_api_seed, respond.
  rewrite seed_content_fresh by done.
  rewrite seed_content_populated.
  - repeat split; try reflexivity; [by rewrite Sp | done].
  - by apply healthy_seeded.
  - by rewrite Sp.
  - intros N. by rewrite N in Sq.
Qed.

(** C9.  A seed request with [with_demo] false answers [ok] and leaves the
    process state as it was: nothing is sent to the store, nothing is
    stored. *)
Theorem seed_without_demo (w : World) :
  POST_api_seed (mkSeedRequest false) w = (JSONResponse 200 (VDict ok_true), w).
Proof. reflexivity. Qed.

(** The seed endpoint answers every request with a JSON response. *)
Lemma seed_always_responds (req : SeedRequest) (w : World) :
  exists code content w', POST_api_seed req w = (JSONResponse code content, w').
Proof.
  unfold POST_api_seed, respond, seed_content.
  match goal with |- context [try_except ?m _ w] =>
    destruct (try_http m str w) as [(a & w' & ->) | (detail & w' & ->)]
  end; by eexists _, _, _.
Qed.
End Seed.

(** ** Submitting a contact message *)

Section Submit.
Context `{Pydantic}.

(** C1, as amended.  For a body with a name, an email the syntax check
    accepts and a message of 3 to 5000 characters, the answer depends on
    the store alone.  If the store takes the insert, the answer is
    [{"ok": true, "id": _id}] with [_id] the non-empty identifier under
    which the record now is the last of the contact collection.  If there
    is no connection, or the store refuses the insert, the answer is an
    error with status 500 and nothing is stored. *)
Theorem contact_valid_outcome (m : Document) (n e e' msg : string) (w : World) :
  m !! "name" = Some (VStr n) ->
  m !! "email" = Some (VStr e) -> email_syntax e = Some e' ->
  m !! "message" = Some (VStr msg) ->
  (3 <= len msg <= 5000)%nat ->
  let record := dump_ContactMessage (ContactMessage.mk n e' msg) in
  let op := OpInsert "contactmessage" record in
  match db w with
  | Some d =>
      match fault d op with
      | None =>
          let _id := oid_string (next_oid d) in
          let d' := (insert_one "contactmessage" record d).2 in
          POST_api_contact (VDict m) w
          = (JSONResponse 200 (VDict (<["id" := VStr _id]> ok_true)),
             with_db d' (logged op w))
          /\ _id <> ""
          /\ docs_of d' "contactmessage"
             = docs_of d "contactmessage" ++ [<["_id" := VStr _id]> record]
      | Some reason =>
          POST_api_contact (VDict m) w
          = (JSONResponse 500 (VDict {["detail" := VStr reason]}), logged op w)
      end
  | None =>
      POST_api_contact (VDict m) w
      = (JSONResponse 500 (VDict {["detail" := VStr "Database not available"]}), w)
  end.
Proof.
  intros En Ee S Em L record op.
  unfold POST_api_contact, parse_ContactIn.
  rewrite (contact_valid m n e e' msg En Ee S Em L).
  unfold respond, submit_contact. fold record.
  destruct (db w) as [d|] eqn:E.
  - destruct (fault d op) as [reason|] eqn:F.
    + erewrite try_raise; last first.
      { eapply bind_raise. unfold create_document. by eapply send_refused. }
      done.
    + split; [|split].
      * erewrite try_ok; [reflexivity|].
        erewrite bind_ok; [reflexivity|]. by apply create_document_run.
      * apply oid_string_nonempty.
      * apply docs_of_insert_one.
  - erewrite try_raise; last first.
    { eapply bind_raise. unfold create_document. by eapply send_no_handle. }
    done.
Qed.

(** The contact endpoint answers every request with a JSON response. *)
Lemma contact_always_responds (body : Value) (w : World) :
  exists code content w', POST_api_contact body w = (JSONResponse code content, w').
Proof.
  unfold POST_api_contact. destruct (parse_ContactIn body) as [errs|payload].
  - by eexists _, _, _.
  - unfold respond, submit_contact.
    match goal with |- context [try_except ?b _ w] =>
      destruct (try_http b str w) as [(a & w' & ->) | (detail & w' & ->)]
    end; by eexists _, _, _.
Qed.
End Submit.

(** ** Reading content *)

Lemma with_db_logged op w d : db w = Some d -> with_db d (logged op w) = logged op w.
Proof. destruct w as [url o tr]. simpl. intros ->. done. Qed.

Section Reads.
Context `{Pydantic}.

Lemma get_documents_read c limit w d :
  db w = Some d -> fault d (OpFind c limit) = None ->
  get_documents c limit w
  = (Ok (limited limit (docs_of d c)), logged (OpFind c limit) w).
Proof.
  intros E F. rewrite (get_documents_run c limit w d E F).
  by rewrite with_db_logged.
Qed.

Lemma dump_PortfolioProfile_no_id p : dump_PortfolioProfile p !! "_id" = None.
Proof. reflexivity. Qed.

Lemma dump_PortfolioProject_no_id p : dump_PortfolioProject p !! "_id" = None.
Proof. reflexivity. Qed.

Lemma required_inr {A} f (v : Validator A) (doc : Document) a :
  required f v doc = inr a -> exists x, doc !! f = Some x /\ v x = inr a.
Proof.
  unfold required. destruct (doc !! f) as [x|]; [|done].
  destruct (v x) as [k|a'] eqn:Ev; [done|]. intros [= <-]. by exists x.
Qed.

Lemma defaulted_inr {A} f (v : Validator A) dflt (doc : Document) a :
  defaulted f v dflt doc = inr a ->
  match doc !! f with
  | None => a = dflt
  | Some x => v x = inr a
  end.
Proof.
  unfold defaulted. destruct (doc !! f) as [x|]; [|by intros [= <-]].
  destruct (v x) as [k|a'] eqn:Ev; [done|]. by intros [= <-].
Qed.

Lemma str_back x s : v_str x = inr s -> VStr s = x.
Proof. destruct x; try done. by intros [= <-]. Qed.

Lemma optional_str_back x o : v_optional v_str x = inr o -> of_optional_str o = x.
Proof. destruct x; try done; by intros [= <-]. Qed.

Lemma optional_url_back x o :
  v_optional v_http_url x = inr o -> of_optional_str o = served_url (Some x).
Proof.
  destruct x; try done; [by intros [= <-]|].
  cbn. destruct (http_url_syntax s); [|done]. by intros [= <-].
Qed.

Lemma v_all_back {A} (v : Validator A) (g : A -> Value) l l' :
  (forall x a, v x = inr a -> g a = x) -> v_all v l = inr l' -> g <$> l' = l.
Proof.
  intros Hg. revert l'. induction l as [|x l IH]; intros l'; cbn [v_all].
  - by intros [= <-].
  - destruct (v x) as [k|a] eqn:Ev; [done|].
    destruct (v_all v l) as [k|r]; [done|]. intros [= <-].
    cbn. by rewrite (Hg _ _ Ev), (IH r).
Qed.

Lemma list_str_back x l : v_list v_str x = inr l -> VList (VStr <$> l) = x.
Proof.
  destruct x; try done. cbn [v_list]. intros E.
  by rewrite (v_all_back v_str VStr _ _ str_back E).
Qed.

Lemma dict_back x (m' : gmap string (option string)) :
  v_dict (v_optional v_str) x = inr m' -> VDict (of_optional_str <$> m') = x.
Proof.
  destruct x; try done. cbn [v_dict]. cbv zeta.
  destruct (v_all _ _) as [k|vals] eqn:E; [done|]. intros [= <-].
  apply (v_all_back _ of_optional_str _ _ optional_str_back) in E.
  f_equal. rewrite <- list_to_map_fmap.
  replace (prod_map id of_optional_str <$> zip (map_to_list m).*1 vals)
    with (map_to_list m); [apply list_to_map_to_list|].
  rewrite <- (zip_fst_snd (map_to_list m)) at 1. rewrite <- E.
  generalize ((map_to_list m).*1). intros ks. clear E. revert vals.
  induction ks as [|k ks IH]; intros [|a vals]; cbn; try done. by rewrite IH.
Qed.

Lemma profile_served (doc : Document) (p : PortfolioProfile.t) :
  validate_PortfolioProfile doc = inr p ->
  let m := dump_PortfolioProfile p in
  dom m = profile_keys
  /\ m !! "name" = doc !! "name"
  /\ m !! "role" = doc !! "role"
  /\ m !! "bio" = doc !! "bio"
  /\ m !! "location" = Some (default VNull (doc !! "location"))
  /\ m !! "avatar" = Some (served_url (doc !! "avatar"))
  /\ m !! "socials"
     = Some (default
               (VDict (list_to_map
                         [("github", VNull); ("twitter", VNull);
                          ("linkedin", VNull); ("website", VNull)]))
               (doc !! "socials"))
  /\ m !! "skills" = Some (default (VList []) (doc !! "skills")).
Proof.
  unfold validate_PortfolioProfile.
  match goal with |- match ?x with _ => _ end = _ -> _ => destruct x as [?|t] eqn:E end;
    [done|].
  destruct t as [[[[[[n r] b] l] a] so] sk]. intros [= <-]. cbv zeta.
  apply both_inr in E as [E Esk]. apply both_inr in E as [E Eso].
  apply both_inr in E as [E Ea]. apply both_inr in E as [E El].
  apply both_inr in E as [E Eb]. apply both_inr in E as [En Er].
  apply required_str_inr in En, Er, Eb.
  apply defaulted_inr in El, Ea, Eso, Esk.
  set (p := PortfolioProfile.mk n r b l a so sk).
  assert (Ll : dump_PortfolioProfile p !! "location" = Some (of_optional_str l))
    by reflexivity.
  assert (La : dump_PortfolioProfile p !! "avatar" = Some (of_optional_str a))
    by reflexivity.
  assert (Lso : dump_PortfolioProfile p !! "socials"
                = Some (VDict (of_optional_str <$> so))) by reflexivity.
  assert (Lsk : dump_PortfolioProfile p !! "skills" = Some (VList (VStr <$> sk)))
    by reflexivity.
  rewrite Ll, La, Lso, Lsk, En, Er, Eb.
  split; [by vm_compute|].
  repeat split; try reflexivity.
  - destruct (doc !! "location") as [x|]; [|by subst l].
    by rewrite (optional_str_back _ _ El).
  - destruct (doc !! "avatar") as [x|]; [|by subst a].
    by rewrite (optional_url_back _ _ Ea).
  - destruct (doc !! "socials") as [x|]; [|subst so; by vm_compute].
    by rewrite (dict_back _ _ Eso).
  - destruct (doc !! "skills") as [x|]; [|by subst sk].
    by rewrite (list_str_back _ _ Esk).
Qed.

(** C4.  With a connected store that carries out the read, and the
    document read from the profile collection being a profile record: the
    answer is [null] when the collection is empty, and otherwise one object
    taken from the first stored document.  The object has the seven keys of
    the schema and no other, so no ["_id"]; [name], [role] and [bio] are the
    stored ones; [location], [socials] and [skills] are the stored ones, or
    their defaults where the document has none; [avatar] is the stored URL
    as the syntax check normalised it, or [null]. *)
Theorem profile_read (w : World) (d : Database) :
  let op := OpFind "portfolioprofile" (Some 1%nat) in
  db w = Some d -> fault d op = None ->
  forallb (fun doc => accepted (validate_PortfolioProfile (delete "_id" doc)))
    (limited (Some 1%nat) (docs_of d "portfolioprofile")) = true ->
  exists v,
    GET_api_profile w = (JSONResponse 200 v, logged op w)
    /\ match docs_of d "portfolioprofile" with
       | [] => v = VNull
       | doc :: _ =>
           exists m,
             v = VDict m
             /\ m !! "_id" = None
             /\ dom m = profile_keys
             /\ m !! "name" = doc !! "name"
             /\ m !! "role" = doc !! "role"
             /\ m !! "bio" = doc !! "bio"
             /\ m !! "location" = Some (default VNull (doc !! "location"))
             /\ m !! "avatar" = Some (served_url (doc !! "avatar"))
             /\ m !! "socials"
                = Some (default
                          (VDict (list_to_map
                                    [("github", VNull); ("twitter", VNull);
                                     ("linkedin", VNull); ("website", VNull)]))
                          (doc !! "socials"))
             /\ m !! "skills" = Some (default (VList []) (doc !! "skills"))
       end.
Proof.
  intros op E F V. unfold GET_api_profile, respond, get_profile.
  erewrite bind_ok; [|by apply get_documents_read].
  destruct (docs_of d "portfolioprofile") as [|doc rest].
  - by eexists.
  - simpl in V. rewrite andb_true_r in V. cbn [limited take].
    destruct (validate_PortfolioProfile (delete "_id" doc)) as [errs|p] eqn:Ev;
      [done|].
    eexists. split; [reflexivity|]. exists (dump_PortfolioProfile p).
    apply profile_served in Ev. cbv zeta in Ev.
    rewrite !lookup_delete_ne in Ev by done.
    split; [done|]. split; [apply dump_PortfolioProfile_no_id | exact Ev].
Qed.

(** C10.  When the first document of the profile collection lacks [name],
    [role] or [bio], the request fails: no response is produced by the
    endpoint function, the validation error raised on constructing the
    profile leaves it uncaught (or the error of the read itself, if the
    store refuses the read). *)
Theorem profile_read_invalid (w : World) (d : Database) (doc : Document)
    (rest : list Document) :
  let op := OpFind "portfolioprofile" (Some 1%nat) in
  db w = Some d ->
  docs_of d "portfolioprofile" = doc :: rest ->
  doc !! "name" = None \/ doc !! "role" = None \/ doc !! "bio" = None ->
  exists e,
    GET_api_profile w = (Unhandled e, logged op w)
    /\ match fault d op with
       | None => exists errs, e = ValidationError errs
                              /\ validate_PortfolioProfile (delete "_id" doc) = inl errs
       | Some reason => e = Error "StoreError" reason
       end.
Proof.
  intros op E D Hm. unfold GET_api_profile, respond, get_profile.
  destruct (fault d op) as [reason|] eqn:F.
  - erewrite bind_raise; [|unfold get_documents; by eapply send_refused].
    by eexists.
  - erewrite bind_ok; [|by apply get_documents_read].
    rewrite D. cbn [limited take].
    destruct (profile_missing_field (delete "_id" doc)) as [errs Ev].
    { by rewrite !lookup_delete_ne. }
    rewrite Ev. eexists. split; [reflexivity|]. by exists errs.
Qed.

Lemma validate_each_run (docs : list Document) (w : World) :
  forallb (fun doc => accepted (validate_PortfolioProject (delete "_id" doc))) docs
  = true ->
  exists ps,
    for_append docs
      (fun d =>
         let d := delete "_id" d in
         match validate_PortfolioProject d with
         | inr p => mret p
         | inl errs => raise (ValidationError errs)
         end) w
    = (Ok ps, w)
    /\ Forall2 (fun doc p => validate_PortfolioProject (delete "_id" doc) = inr p)
         docs ps.
Proof.
  induction docs as [|doc docs IH]; intros V.
  - exists []. by split.
  - simpl in V. apply andb_true_iff in V as [Vd Vs].
    destruct (IH Vs) as (ps & Eps & Fps).
    destruct (validate_PortfolioProject (delete "_id" doc)) as [errs|p] eqn:Ev;
      [done|].
    exists (p :: ps). split; [|by constructor].
    cbn [for_append]. cbv zeta. rewrite Ev.
    erewrite bind_ok; [|reflexivity].
    erewrite bind_ok; [|exact Eps]. done.
Qed.

(** C5.  With a connected store that carries out the read, and the stored
    project documents being project records: the answer is an array with
    one element per stored document, in storage order, each the JSON form
    of the project validated from that document and without an ["_id"]
    key; so the array is as long as the collection, and empty when the
    collection is. *)
Theorem projects_read (w : World) (d : Database) :
  let op := OpFind "portfolioproject" None in
  db w = Some d -> fault d op = None ->
  forallb (fun doc => accepted (validate_PortfolioProject (delete "_id" doc)))
    (docs_of d "portfolioproject") = true ->
  exists items,
    GET_api_projects w = (JSONResponse 200 (VList items), logged op w)
    /\ length items = length (docs_of d "portfolioproject")
    /\ Forall2
         (fun doc v =>
            exists p,
              validate_PortfolioProject (delete "_id" doc) = inr p
              /\ v = VDict (dump_PortfolioProject p)
              /\ dump_PortfolioProject p !! "_id" = None)
         (docs_of d "portfolioproject") items.
Proof.
  intros op E F V. subst op. unfold GET_api_projects, respond, list_projects.
  destruct (validate_each_run _ (logged (OpFind "portfolioproject" None) w) V)
    as (ps & Eps & Fps).
  erewrite bind_ok; [|by apply get_documents_read].
  cbn [limited]. cbv zeta in Eps. rewrite Eps.
  eexists. split; [reflexivity|].
  unfold projects_json. rewrite length_fmap.
  split; [symmetry; by eapply Forall2_length|].
  apply Forall2_fmap_r. eapply Forall2_impl; [exact Fps|].
  intros doc p Ev. exists p. by rewrite dump_PortfolioProject_no_id.
Qed.

Lemma profile_unavailable (w : World) :
  db w = None -> GET_api_profile w = (Unhandled unavailable, w).
Proof.
  intros E. unfold GET_api_profile, respond, get_profile.
  erewrite bind_raise; [|unfold get_documents; by apply send_no_handle]. done.
Qed.

Lemma projects_unavailable (w : World) :
  db w = None -> GET_api_projects w = (Unhandled unavailable, w).
Proof.
  intros E. unfold GET_api_projects, respond, list_projects.
  erewrite bind_raise; [|unfold get_documents; by apply send_no_handle]. done.
Qed.
End Reads.

(** ** The diagnostic endpoint *)

Section Diagnostics.
Context `{Pydantic}.

Lemma test_database_no_handle url tr :
  test_database (mkWorld url None tr)
  = (Ok (mkStatus "✅ Running" "❌ Not Available" "❌ Not Set" "❌ Not Set"
           "Not Connected" []),
     mkWorld url None tr).
Proof. reflexivity. Qed.

Lemma test_database_returns (w : World) :
  exists s w', test_database w = (Ok s, w') /\ (length (collections s) <= 10)%nat.
Proof.
  destruct w as [url [d|] tr].
  - cbv [test_database with_local try_except global assign modify gets
           list_collection_names send getenv_DATABASE_URL mbind Eff_bind mret
           Eff_ret db DATABASE_URL trace fst snd].
    destruct (fault d OpListNames) as [reason|].
    + eexists _, _. split; [reflexivity|].
      cbn [collections set_database set_database_url set_database_name
             set_connection_status length].
      lia.
    + eexists _, _. split; [reflexivity|].
      cbn [collections set_database set_collections].
      rewrite length_take. lia.
  - eexists _, _. rewrite test_database_no_handle. split; [reflexivity|].
    cbn [collections length]. lia.
Qed.

(** C7.  The diagnostic function returns a status for every process state,
    it never raises, and the [collections] of the status are at most ten
    names; the endpoint answers with that status.  In a process started
    without a connection string the status says that the URL is not set
    and that the database is not connected. *)
Theorem test_never_raises :
  (forall w : World,
     exists s w',
       test_database w = (Ok s, w')
       /\ GET_test w = (JSONResponse 200 (status_dict s), w')
       /\ (length (collections s) <= 10)%nat)
  /\ (forall backend : Database,
        exists s,
          test_database (startup None backend) = (Ok s, startup None backend)
          /\ database_url s = "❌ Not Set"
          /\ connection_status s = "Not Connected").
Proof.
  split.
  - intros w. destruct (test_database_returns w) as (s & w' & E & L).
    exists s, w'. split; [done|]. split; [|done].
    unfold GET_test, respond. by rewrite E.
  - intros backend. eexists. split; [apply test_database_no_handle|]. done.
Qed.
End Diagnostics.

(** ** The model at concrete requests *)

(** C1, the claim as stated fails: the body is a valid contact message, yet
    in a process started without a connection string the answer is an error
    with status 500. *)
Lemma contact_store_unavailable :
  parse_ContactIn hello = inr (ContactMessage.mk "Ada" "ada@example.com" "Hello there")
  /\ POST_api_contact hello degraded
     = (JSONResponse 500 (VDict {["detail" := VStr "Database not available"]}),
        degraded).
Proof. split; vm_compute; reflexivity. Qed.

Lemma contact_valid_outcome_witness :
  POST_api_contact hello connected
  = (JSONResponse 200 (VDict (<["id" := VStr "000000000000000000000000"]> ok_true)),
     with_db (insert_one "contactmessage" hello_fields empty_db).2
       (logged (OpInsert "contactmessage" hello_fields) connected))
  /\ oid_string 0 <> "".
Proof.
  pose proof (contact_valid_outcome hello_fields "Ada" "ada@example.com"
                "ada@example.com" "Hello there" connected
                eq_refl eq_refl eq_refl eq_refl) as W.
  assert (L : (3 <= len "Hello there" <= 5000)%nat) by (simpl; lia).
  specialize (W L). destruct W as (E & N & _). split; [exact E | exact N].
Defined.

Lemma contact_invalid_rejected_witness :
  exists errs, POST_api_contact (VDict terse_fields) connected
               = (unprocessable errs, connected).
Proof.
  apply contact_invalid_rejected. left. exists "éé".
  split; [reflexivity | vm_compute; lia].
Defined.

Lemma seed_twice_witness :
  exists w1 w2 d',
    POST_api_seed (mkSeedRequest true) connected
    = (JSONResponse 200 (VDict ok_true), w1)
    /\ POST_api_seed (mkSeedRequest true) w1 = (JSONResponse 200 (VDict ok_true), w2)
    /\ db w1 = Some d' /\ db w2 = Some d'
    /\ trace w2 = trace w1 ++ [OpCount "portfolioprofile"; OpCount "portfolioproject"]
    /\ length (docs_of d' "portfolioprofile") = 1%nat
    /\ length (docs_of d' "portfolioproject") = 3%nat.
Proof.
  apply (seed_twice connected empty_db); [reflexivity | | reflexivity | reflexivity].
  intros op. reflexivity.
Defined.

Lemma profile_read_witness :
  exists v,
    GET_api_profile seeded_world
    = (JSONResponse 200 v, logged (OpFind "portfolioprofile" (Some 1%nat)) seeded_world)
    /\ match docs_of (seeded empty_db) "portfolioprofile" with
       | [] => v = VNull
       | doc :: _ =>
           exists m,
             v = VDict m
             /\ m !! "_id" = None
             /\ dom m = profile_keys
             /\ m !! "name" = doc !! "name"
             /\ m !! "role" = doc !! "role"
             /\ m !! "bio" = doc !! "bio"
             /\ m !! "location" = Some (default VNull (doc !! "location"))
             /\ m !! "avatar" = Some (served_url (doc !! "avatar"))
             /\ m !! "socials"
                = Some (default
                          (VDict (list_to_map
                                    [("github", VNull); ("twitter", VNull);
                                     ("linkedin", VNull); ("website", VNull)]))
                          (doc !! "socials"))
             /\ m !! "skills" = Some (default (VList []) (doc !! "skills"))
       end.
Proof.
  apply (profile_read seeded_world (seeded empty_db));
    [reflexivity | reflexivity | vm_compute; reflexivity].
Defined.

Lemma projects_read_witness :
  exists items,
    GET_api_projects seeded_world
    = (JSONResponse 200 (VList items), logged (OpFind "portfolioproject" None) seeded_world)
    /\ length items = length (docs_of (seeded empty_db) "portfolioproject")
    /\ Forall2
         (fun doc v =>
            exists p,
              validate_PortfolioProject (delete "_id" doc) = inr p
              /\ v = VDict (dump_PortfolioProject p)
              /\ dump_PortfolioProject p !! "_id" = None)
         (docs_of (seeded empty_db) "portfolioproject") items.
Proof.
  apply (projects_read seeded_world (seeded empty_db));
    [reflexivity | reflexivity | vm_compute; reflexivity].
Defined.

(** C6, at a failing request: in a process started without a connection
    string both read endpoints let the store error leave the endpoint
    function uncaught, where the contact and seed endpoints answer with a
    JSON error of status 500. *)
Theorem reads_leave_store_error_uncaught :
  GET_api_profile degraded = (Unhandled unavailable, degraded)
  /\ GET_api_projects degraded = (Unhandled unavailable, degraded)
  /\ POST_api_seed (mkSeedRequest true) degraded
     = (JSONResponse 500
          (VDict {["detail" := VStr "'NoneType' object is not subscriptable"]}),
        degraded).
Proof. repeat split; vm_compute; reflexivity. Qed.

(** C8, the claim as stated fails: a profile whose name is the empty string
    is accepted. *)
Lemma profile_empty_name_accepted :
  validate_PortfolioProfile anonymous
  = inr (PortfolioProfile.mk "" "Developer" "Hello" None None default_socials []).
Proof. vm_compute. reflexivity. Qed.

Lemma profile_name_is_a_string_witness :
  exists s, demo_profile !! "name" = Some (VStr s)
            /\ PortfolioProfile.name
                 (PortfolioProfile.mk "Legas Yasin" "Web Developer"
                    "I build vibrant, modern, and high-performance web experiences."
                    (Some "Addis Ababa, Ethiopia") None
                    (list_to_map
                       [("github", Some "https://github.com/");
                        ("twitter", None);
                        ("linkedin", Some "https://www.linkedin.com/");
                        ("website", Some "https://example.com")])
                    ["React"; "Tailwind CSS"; "Framer Motion"; "FastAPI"; "MongoDB"])
               = s.
Proof.
  apply (profile_name_is_a_string demo_profile). vm_compute. reflexivity.
Defined.

Lemma profile_read_invalid_witness :
  exists e,
    GET_api_profile incomplete_world
    = (Unhandled e, logged (OpFind "portfolioprofile" (Some 1%nat)) incomplete_world)
    /\ exists errs, e = ValidationError errs
                    /\ validate_PortfolioProfile (delete "_id" incomplete) = inl errs.
Proof.
  apply (profile_read_invalid incomplete_world incomplete_db incomplete []);
    [reflexivity | reflexivity | right; right; reflexivity].
Defined.

(** * Further properties of the handlers *)

(** ** Seeding from any state *)

Lemma healthy_profile_step d : healthy d -> healthy (seed_profile_step d).
Proof.
  intros Hd. unfold seed_profile_step.
  destruct (docs_of d "portfolioprofile"); [by apply healthy_insert_one | done].
Qed.

Lemma profile_step_projects d :
  docs_of (seed_profile_step d) "portfolioproject" = docs_of d "portfolioproject".
Proof.
  unfold seed_profile_step. destruct (docs_of d "portfolioprofile"); [|done].
  by rewrite docs_of_insert_one_ne.
Qed.

Lemma profile_step_nonempty d : docs_of (seed_profile_step d) "portfolioprofile" <> [].
Proof.
  unfold seed_profile_step. destruct (docs_of d "portfolioprofile") eqn:E.
  - rewrite docs_of_insert_one, E. done.
  - by rewrite E.
Qed.

Lemma create_each_docs c (l : list Document) d :
  length (docs_of (fold_left (fun d p => (insert_one c p d).2) l d) c)
  = (length (docs_of d c) + length l)%nat.
Proof.
  revert d. induction l as [|p l IH]; intros d; cbn [fold_left length]; [lia|].
  rewrite IH, docs_of_insert_one, length_app. cbn [length]. lia.
Qed.

Lemma create_each_docs_ne c c' (l : list Document) d :
  c <> c' ->
  docs_of (fold_left (fun d p => (insert_one c p d).2) l d) c' = docs_of d c'.
Proof.
  intros N. revert d. induction l as [|p l IH]; intros d; cbn [fold_left]; [done|].
  by rewrite IH, docs_of_insert_one_ne.
Qed.

Lemma projects_step_profiles d :
  docs_of (seed_projects_step d) "portfolioprofile" = docs_of d "portfolioprofile".
Proof.
  unfold seed_projects_step. destruct (docs_of d "portfolioproject"); [|done].
  by apply create_each_docs_ne.
Qed.

Lemma projects_step_nonempty d : docs_of (seed_projects_step d) "portfolioproject" <> [].
Proof.
  unfold seed_projects_step. destruct (docs_of d "portfolioproject") eqn:E.
  - intros N. pose proof (create_each_docs "portfolioproject" sample d) as L.
    rewrite N, E in L. discriminate.
  - by rewrite E.
Qed.

Lemma seed_steps_elsewhere d c :
  c <> "portfolioprofile" -> c <> "portfolioproject" ->
  docs_of (seed_projects_step (seed_profile_step d)) c = docs_of d c.
Proof.
  intros N1 N2. unfold seed_projects_step, seed_profile_step.
  destruct (docs_of d "portfolioprofile") eqn:Ep;
    match goal with |- context [match ?x with _ => _ end] => destruct x end;
    rewrite ?create_each_docs_ne, ?docs_of_insert_one_ne by done; done.
Qed.

Lemma profile_step_id d : docs_of d "portfolioprofile" <> [] -> seed_profile_step d = d.
Proof.
  intros N. unfold seed_profile_step. by destruct (docs_of d "portfolioprofile").
Qed.

Lemma projects_step_id d : docs_of d "portfolioproject" <> [] -> seed_projects_step d = d.
Proof.
  intros N. unfold seed_projects_step. by destruct (docs_of d "portfolioproject").
Qed.

Section SeedAnywhere.
Context `{Pydantic}.

Lemma seed_content_run url d tr :
  healthy d ->
  exists ops,
    seed_content (mkSeedRequest true) (mkWorld url (Some d) tr)
    = (Ok (VDict ok_true),
       mkWorld url (Some (seed_projects_step (seed_profile_step d))) (tr ++ ops))
    /\ (docs_of d "portfolioprofile" <> [] -> docs_of d "portfolioproject" <> [] ->
        ops = [OpCount "portfolioprofile"; OpCount "portfolioproject"]).
Proof.
  intros Hd.
  destruct (docs_of d "portfolioprofile") as [|p ps] eqn:Ep;
    destruct (docs_of d "portfolioproject") as [|q qs] eqn:Eq.
  - eexists. split; [|intros N; by destruct N]. rewrite seed_content_fresh by done.
    unfold seed_projects_step, seed_profile_step. rewrite Ep.
    rewrite docs_of_insert_one_ne, Eq by done. reflexivity.
  - eexists. split; [|intros N; by destruct N]. unfold seed_content. apply try_ok.
    cbn [with_demo when].
    erewrite bind_ok; last first.
    { erewrite bind_ok; [|by apply count_documents_run].
      rewrite count_is_zero, Ep. cbn [when].
      erewrite bind_ok; last first.
      { erewrite bind_ok; [reflexivity|]. by apply create_document_run. }
      erewrite bind_ok; [|by apply count_documents_run, healthy_insert_one].
      rewrite count_is_zero, docs_of_insert_one_ne, Eq by done. reflexivity. }
    unfold seed_projects_step, seed_profile_step. rewrite Ep.
    rewrite docs_of_insert_one_ne, Eq by done.
    unfold with_db, logged, mret, Eff_ret. cbn [DATABASE_URL db trace].
    rewrite <- !app_assoc. reflexivity.
  - eexists. split; [|intros _ N; by destruct N]. unfold seed_content. apply try_ok.
    cbn [with_demo when].
    erewrite bind_ok; last first.
    { erewrite bind_ok; [|by apply count_documents_run].
      rewrite count_is_zero, Ep. cbn [when].
      erewrite bind_ok; [|reflexivity].
      erewrite bind_ok; [|by apply count_documents_run].
      rewrite count_is_zero, Eq. cbn [when].
      unfold with_db, logged. cbn [DATABASE_URL db trace].
      by rewrite create_each_run. }
    unfold seed_projects_step, seed_profile_step. rewrite Ep, Eq.
    rewrite <- !app_assoc. reflexivity.
  - eexists. split; [|by intros _ _].
    rewrite seed_content_populated by (done || by rewrite ?Ep, ?Eq).
    unfold seed_projects_step, seed_profile_step. by rewrite Ep, Eq.
Qed.

(** X1.  What a seed with demo content does on a connected store that
    refuses nothing, whatever it holds: the answer is [ok]; a collection
    that was empty receives its demo content (one profile, three projects),
    a collection that held anything is left exactly as it was, each
    independently of the other; no other collection changes. *)
Theorem seed_fills_empty_collections_only (w : World) (d : Database) :
  db w = Some d -> healthy d ->
  exists w' d',
    POST_api_seed (mkSeedRequest true) w = (JSONResponse 200 (VDict ok_true), w')
    /\ db w' = Some d'
    /\ docs_of d' "portfolioprofile"
       = match docs_of d "portfolioprofile" with
         | [] => [<["_id" := VStr (oid_string (next_oid d))]> demo_profile]
         | stored => stored
         end
    /\ match docs_of d "portfolioproject" with
       | [] => length (docs_of d' "portfolioproject") = 3%nat
       | stored => docs_of d' "portfolioproject" = stored
       end
    /\ forall c, c <> "portfolioprofile" -> c <> "portfolioproject" ->
                 docs_of d' c = docs_of d c.
Proof.
  intros E Hd. destruct w as [url o tr]. simpl in E. subst o.
  destruct (seed_content_run url d tr Hd) as (ops & Er & _).
  eexists _, _. unfold POST_api_seed, respond. rewrite Er.
  split; [reflexivity|]. split; [reflexivity|].
  split; [|split].
  - rewrite projects_step_profiles. unfold seed_profile_step.
    destruct (docs_of d "portfolioprofile") eqn:Ep; [|done].
    by rewrite docs_of_insert_one, Ep.
  - pose proof (profile_step_projects d) as Eq.
    unfold seed_projects_step. rewrite Eq.
    destruct (docs_of d "portfolioproject") eqn:Eq'; [|by rewrite Eq].
    by rewrite create_each_docs, Eq.
  - intros c N1 N2. by apply seed_steps_elsewhere.
Qed.

(** X2.  Seeding is idempotent from every state of a connected store that
    refuses nothing: after one seed both collections are non-empty, so a
    second seed only counts the two collections, inserts nothing and leaves
    the database as the first seed left it. *)
Theorem seed_idempotent (w : World) (d : Database) :
  db w = Some d -> healthy d ->
  exists w1 w2,
    POST_api_seed (mkSeedRequest true) w = (JSONResponse 200 (VDict ok_true), w1)
    /\ POST_api_seed (mkSeedRequest true) w1 = (JSONResponse 200 (VDict ok_true), w2)
    /\ db w2 = db w1
    /\ trace w2 = trace w1 ++ [OpCount "portfolioprofile"; OpCount "portfolioproject"].
Proof.
  intros E Hd. destruct w as [url o tr]. simpl in E. subst o.
  destruct (seed_content_run url d tr Hd) as (ops & Er & _).
  assert (Hd' : healthy (seed_projects_step (seed_profile_step d))).
  { intros op. unfold seed_projects_step, seed_profile_step.
    repeat match goal with |- context [match ?x with _ => _ end] => destruct x end;
      apply Hd. }
  destruct (seed_content_run url _ (tr ++ ops) Hd') as (ops' & Er' & Eops).
  assert (Hp : docs_of (seed_projects_step (seed_profile_step d)) "portfolioprofile"
               <> []).
  { rewrite projects_step_profiles. apply profile_step_nonempty. }
  pose proof (projects_step_nonempty (seed_profile_step d)) as Hq.
  specialize (Eops Hp Hq). subst ops'.
  eexists _, _. unfold POST_api_seed, respond. rewrite Er, Er'.
  split; [reflexivity|]. split; [reflexivity|]. cbn [db trace].
  split; [|reflexivity].
  f_equal. by rewrite (profile_step_id _ Hp), (projects_step_id _ Hq).
Qed.
End SeedAnywhere.

(** ** A seed that the store interrupts *)

Lemma create_each_interrupted c (stored : list Document) p rest url d tr reason :
  Forall (fun q => fault d (OpInsert c q) = None) stored ->
  fault d (OpInsert c p) = Some reason ->
  for_each (stored ++ p :: rest) (fun p => create_document c p;; mret tt)
    (mkWorld url (Some d) tr)
  = (Raise (Error "StoreError" reason),
     mkWorld url (Some (fold_left (fun d p => (insert_one c p d).2) stored d))
       (tr ++ (OpInsert c <$> stored) ++ [OpInsert c p])).
Proof.
  revert d tr. induction stored as [|q stored IH]; intros d tr Hs Hp.
  - cbn [app for_each fold_left fmap list_fmap].
    erewrite bind_raise; [reflexivity|].
    erewrite bind_raise; [reflexivity|].
    unfold create_document. by erewrite send_refused.
  - apply Forall_cons in Hs as [Hq Hs].
    cbn [app for_each fold_left fmap list_fmap].
    erewrite bind_ok; last first.
    { erewrite bind_ok; [reflexivity|]. by apply create_document_run. }
    unfold with_db, logged. cbn [DATABASE_URL db trace].
    rewrite IH by done. by rewrite <- app_assoc.
Qed.

Section SeedInterrupted.
Context `{Pydantic}.

(** X3.  A seed is not atomic.  On a connected store with both collections
    empty that takes the profile and the first projects of the demo list but
    refuses one of them, the answer is an error with status 500 carrying the
    store's message, and what was inserted before the refusal stays: the
    profile, and the projects that precede the refused one; the projects
    after it are never sent. *)
Theorem seed_interrupted (w : World) (d : Database) (stored rest : list Document)
    (p : Document) (reason : string) :
  db w = Some d ->
  docs_of d "portfolioprofile" = [] -> docs_of d "portfolioproject" = [] ->
  sample = stored ++ p :: rest ->
  fault d (OpCount "portfolioprofile") = None ->
  fault d (OpInsert "portfolioprofile" demo_profile) = None ->
  fault d (OpCount "portfolioproject") = None ->
  Forall (fun q => fault d (OpInsert "portfolioproject" q) = None) stored ->
  fault d (OpInsert "portfolioproject" p) = Some reason ->
  exists w' d',
    POST_api_seed (mkSeedRequest true) w
    = (JSONResponse 500 (VDict {["detail" := VStr reason]}), w')
    /\ db w' = Some d'
    /\ length (docs_of d' "portfolioprofile") = 1%nat
    /\ length (docs_of d' "portfolioproject") = length stored
    /\ trace w'
       = trace w
         ++ [OpCount "portfolioprofile"; OpInsert "portfolioprofile" demo_profile;
             OpCount "portfolioproject"]
         ++ (OpInsert "portfolioproject" <$> stored)
         ++ [OpInsert "portfolioproject" p].
Proof.
  intros E Hp Hq Hs F1 F2 F3 Fs Fp. destruct w as [url o tr]. simpl in E. subst o.
  eexists _, _. unfold POST_api_seed, respond, seed_content.
  erewrite try_raise; last first.
  { cbn [with_demo when]. eapply bind_raise.
    erewrite bind_ok; [|by apply count_documents_run].
    rewrite count_is_zero, Hp. cbn [when].
    erewrite bind_ok; last first.
    { erewrite bind_ok; [reflexivity|]. by apply create_document_run. }
    erewrite bind_ok; [|by apply count_documents_run].
    rewrite count_is_zero, docs_of_insert_one_ne, Hq by done. cbn [when].
    rewrite Hs. unfold with_db, logged. cbn [DATABASE_URL db trace].
    by apply create_each_interrupted. }
  unfold raise. cbn [str db trace].
  split; [reflexivity|]. split; [reflexivity|].
  split; [|split].
  - by rewrite create_each_docs_ne, docs_of_insert_one, Hp.
  - by rewrite create_each_docs, docs_of_insert_one_ne, Hq.
  - by rewrite <- !app_assoc.
Qed.
End SeedInterrupted.

(** ** What the write endpoints can answer *)

Lemma then_return {S A B} (m : Eff S A) (v : B) s b s' :
  (m;; mret v) s = (Ok b, s') -> b = v.
Proof.
  unfold mbind, Eff_bind, mret, Eff_ret. destruct (m s) as [[a|e] s1]; [|done].
  by intros [= <- _].
Qed.

Lemma bounded_inr min_length max_length f (m : Document) s :
  required f (v_str_bounded min_length max_length) m = inr s
  <-> m !! f = Some (VStr s)
      /\ (min_length <= len s)%nat /\ (len s <= max_length)%nat.
Proof.
  unfold required, v_str_bounded. split.
  - destruct (m !! f) as [v|]; [|done]. destruct v; try done.
    destruct (Nat.ltb_spec (len s0) min_length); [done|].
    destruct (Nat.ltb_spec max_length (len s0)); [done|].
    intros [= ->]. done.
  - intros (-> & L1 & L2).
    destruct (Nat.ltb_spec (len s) min_length); [lia|].
    by destruct (Nat.ltb_spec max_length (len s)); [lia|].
Qed.

Section Writes.
Context `{Pydantic}.

Lemma email_inr (m : Document) e' :
  required "email" v_email m = inr e'
  <-> exists e, m !! "email" = Some (VStr e) /\ email_syntax e = Some e'.
Proof.
  unfold required, v_email. split.
  - destruct (m !! "email") as [v|]; [|done]. destruct v; try done.
    destruct (email_syntax s) as [e1|] eqn:S; [|done].
    intros [= ->]. by exists s.
  - intros (e & -> & ->). done.
Qed.

Lemma contact_accepted_fields (m : Document) (p : ContactMessage.t) :
  validate_ContactMessage m = inr p ->
  m !! "name" = Some (VStr (ContactMessage.name p))
  /\ (exists e, m !! "email" = Some (VStr e)
                /\ email_syntax e = Some (ContactMessage.email p))
  /\ m !! "message" = Some (VStr (ContactMessage.message p))
  /\ (3 <= len (ContactMessage.message p) <= 5000)%nat.
Proof.
  unfold validate_ContactMessage.
  match goal with |- match ?x with _ => _ end = _ -> _ =>
    destruct x as [?|t] eqn:E end; [done|].
  destruct t as [[n e'] msg]. intros [= <-]. cbn.
  apply both_inr in E as [E Em]. apply both_inr in E as [En Ee].
  apply required_str_inr in En. apply email_inr in Ee.
  apply bounded_inr in Em as (Em & L1 & L2). done.
Qed.

(** X4.  A contact body is accepted exactly when its name is a string, its
    email a string the syntax check accepts, and its message a string of 3
    to 5000 characters; the accepted payload carries the name and message
    as sent and the email as the check normalised it. *)
Theorem contact_accepted_iff (m : Document) (p : ContactMessage.t) :
  parse_ContactIn (VDict m) = inr p
  <-> m !! "name" = Some (VStr (ContactMessage.name p))
      /\ (exists e, m !! "email" = Some (VStr e)
                    /\ email_syntax e = Some (ContactMessage.email p))
      /\ m !! "message" = Some (VStr (ContactMessage.message p))
      /\ (3 <= len (ContactMessage.message p) <= 5000)%nat.
Proof.
  cbn [parse_ContactIn]. split; [apply contact_accepted_fields|].
  destruct p as [n e' msg]. cbn. intros (En & (e & Ee & S) & Em & L).
  by eapply contact_valid.
Qed.

(** X5.  A message of more than 5000 characters is refused like one that is
    too short: status 422, the endpoint function does not run and the
    process state is what it was. *)
Theorem contact_long_message_rejected (m : Document) (msg : string) (w : World) :
  m !! "message" = Some (VStr msg) -> (5000 < len msg)%nat ->
  exists errs, POST_api_contact (VDict m) w = (unprocessable errs, w).
Proof.
  intros Em L. unfold POST_api_contact. cbn [parse_ContactIn].
  destruct (validate_ContactMessage m) as [errs|p] eqn:E; [by eexists|].
  apply contact_accepted_fields in E as (_ & _ & Em' & L').
  rewrite Em in Em'. injection Em' as ->. lia.
Qed.

(** X6.  The two endpoints that write never let an exception out, and their
    answers are of three kinds only, for every request body: status 200 with
    [ok] true, status 422 for a body that does not fit the declared model
    (the state is then unchanged), and status 500 with a [detail] string. *)
Theorem write_endpoints_answers (w : World) :
  (forall body,
     exists w',
       POST_api_seed_json body w = (JSONResponse 200 (VDict ok_true), w')
       \/ (exists errs, POST_api_seed_json body w = (unprocessable errs, w') /\ w' = w)
       \/ exists detail,
            POST_api_seed_json body w
            = (JSONResponse 500 (VDict {["detail" := VStr detail]}), w'))
  /\ (forall body,
        exists w',
          (exists _id,
             POST_api_contact body w
             = (JSONResponse 200 (VDict (<["id" := VStr _id]> ok_true)), w'))
          \/ (exists errs, POST_api_contact body w = (unprocessable errs, w') /\ w' = w)
          \/ exists detail,
               POST_api_contact body w
               = (JSONResponse 500 (VDict {["detail" := VStr detail]}), w')).
Proof.
  split.
  - intros body. unfold POST_api_seed_json.
    destruct (parse_SeedRequest body) as [errs|req].
    { exists w. right. left. by exists errs. }
    unfold POST_api_seed, respond, seed_content.
    match goal with |- context [try_except ?b _ w] =>
      destruct (try_http b str w) as [(a & w' & E) | (detail & w' & E)];
      pose proof E as E'; unfold try_except in E';
      destruct (b w) as [[a0|e0] w0] eqn:Eb
    end; exists w'; rewrite E.
    + left. injection E' as <- <-. by rewrite (then_return _ _ _ _ _ Eb).
    + discriminate.
    + discriminate.
    + right. right. by exists detail.
  - intros body. unfold POST_api_contact.
    destruct (parse_ContactIn body) as [errs|payload].
    { exists w. right. left. by exists errs. }
    unfold respond, submit_contact.
    match goal with |- context [try_except ?b _ w] =>
      destruct (try_http b str w) as [(a & w' & E) | (detail & w' & E)];
      pose proof E as E'; unfold try_except in E';
      destruct (b w) as [[a0|e0] w0] eqn:Eb
    end; exists w'; rewrite E.
    + left. injection E' as <- <-.
      unfold mbind, Eff_bind in Eb.
      destruct (create_document _ _ w) as [[i|e1] w1]; [|done].
      injection Eb as <- <-. by exists i.
    + discriminate.
    + discriminate.
    + right. right. by exists detail.
Qed.


End Writes.

(** ** The read endpoints *)

Lemma respond_state {A} (serialise : A -> Value) (m : M A) w :
  (respond serialise m w).2 = (m w).2.
Proof.
  unfold respond. destruct (m w) as [[a|e] w']; [done|]. by destruct e.
Qed.

Lemma for_append_state {S A B} (l : list A) (f : A -> Eff S B) s :
  (forall x s0, (f x s0).2 = s0) -> (for_append l f s).2 = s.
Proof.
  intros Hf. revert s. induction l as [|x l IH]; intros s; [done|].
  cbn [for_append]. unfold mbind, Eff_bind.
  pose proof (Hf x s) as Hx. destruct (f x s) as [[b|e] s1]; cbn in Hx; subst s1;
    [|done].
  pose proof (IH s) as Hl. destruct (for_append l f s) as [[bs|e] s2]; cbn in Hl;
    by subst s2.
Qed.

Lemma take_one_head {A} (l : list A) : take 1 l = option_list (head l).
Proof. by destruct l. Qed.

Lemma len_prefix n s : len (prefix n s) = (n `min` len s)%nat.
Proof.
  revert n. induction s as [|c s IH]; intros n; cbn [prefix len]; [lia|].
  destruct (is_continuation c) eqn:Ec; cbn [len]; rewrite ?Ec; [apply IH|].
  destruct n as [|n]; cbn [len]; rewrite ?Ec, ?IH; lia.
Qed.

Lemma prefix_is_prefix n s : exists rest, s = prefix n s +:+ rest.
Proof.
  revert n. induction s as [|c s IH]; intros n; cbn [prefix]; [by exists ""|].
  destruct (is_continuation c).
  - destruct (IH n) as [rest E]. exists rest.
    change (String c s = String c (prefix n s +:+ rest)). by f_equal.
  - destruct n as [|n]; [by eexists|].
    destruct (IH n) as [rest E]. exists rest.
    change (String c s = String c (prefix n s +:+ rest)). by f_equal.
Qed.

Section ReadEndpoints.
Context `{Pydantic}.

(** X8.  The four GET endpoints are read-only: each leaves the process
    state as it was, or sends a single operation to the store, and in no
    case changes a stored document, also when the request fails. *)
Theorem get_endpoints_read_only :
  read_only GET_root /\ read_only GET_test
  /\ read_only GET_api_profile /\ read_only GET_api_projects.
Proof.
  repeat split; intros w.
  - by left.
  - unfold GET_test. rewrite respond_state. destruct w as [url [d|] tr]; [|by left].
    right. exists OpListNames.
    cbv [test_database with_local try_except global assign modify gets
           list_collection_names send getenv_DATABASE_URL mbind Eff_bind mret
           Eff_ret db DATABASE_URL trace fst snd].
    by destruct (fault d OpListNames).
  - unfold GET_api_profile. rewrite respond_state. unfold get_profile.
    destruct (db w) as [d|] eqn:E.
    + right. exists (OpFind "portfolioprofile" (Some 1%nat)).
      destruct (fault d (OpFind "portfolioprofile" (Some 1%nat))) eqn:F.
      * erewrite bind_raise; [reflexivity|].
        unfold get_documents. by eapply send_refused.
      * erewrite bind_ok; [|by apply get_documents_read].
        destruct (limited _ _) as [|doc ?]; [done|]. cbv zeta.
        by destruct (validate_PortfolioProfile (delete "_id" doc)).
    + left. erewrite bind_raise; [reflexivity|].
      unfold get_documents. by apply send_no_handle.
  - unfold GET_api_projects. rewrite respond_state. unfold list_projects.
    destruct (db w) as [d|] eqn:E.
    + right. exists (OpFind "portfolioproject" None).
      destruct (fault d (OpFind "portfolioproject" None)) eqn:F.
      * erewrite bind_raise; [reflexivity|].
        unfold get_documents. by eapply send_refused.
      * erewrite bind_ok; [|by apply get_documents_read].
        apply for_append_state. intros x s0. cbv zeta.
        by destruct (validate_PortfolioProject (delete "_id" x)).
    + left. erewrite bind_raise; [reflexivity|].
      unfold get_documents. by apply send_no_handle.
Qed.

(** X9.  Only the first document of the profile collection is looked at:
    two connected stores that carry out the read and agree on the first
    profile document (or both have none) get the same answer, whatever else
    they hold. *)
Theorem profile_read_first_only (w1 w2 : World) (d1 d2 : Database) :
  let op := OpFind "portfolioprofile" (Some 1%nat) in
  db w1 = Some d1 -> db w2 = Some d2 ->
  fault d1 op = None -> fault d2 op = None ->
  head (docs_of d1 "portfolioprofile") = head (docs_of d2 "portfolioprofile") ->
  (GET_api_profile w1).1 = (GET_api_profile w2).1.
Proof.
  intros op E1 E2 F1 F2 Hh. unfold GET_api_profile, respond, get_profile.
  erewrite !bind_ok by by apply get_documents_read.
  cbn [limited]. rewrite !take_one_head, Hh.
  destruct (head (docs_of d2 "portfolioprofile")) as [doc|]; [|reflexivity].
  change (option_list (Some doc)) with [doc]. cbv beta iota zeta.
  destruct (validate_PortfolioProfile (delete "_id" doc)); reflexivity.
Qed.

Lemma validate_each_fails (good rest : list Document) (bad : Document) errs
    (w : World) :
  forallb (fun doc => accepted (validate_PortfolioProject (delete "_id" doc))) good
  = true ->
  validate_PortfolioProject (delete "_id" bad) = inl errs ->
  for_append (good ++ bad :: rest)
    (fun d =>
       match validate_PortfolioProject (delete "_id" d) with
       | inr p => mret p
       | inl errs => raise (ValidationError errs)
       end) w
  = (Raise (ValidationError errs), w).
Proof.
  intros V B. induction good as [|doc good IH].
  - cbn [app for_append]. rewrite B. by erewrite bind_raise.
  - simpl in V. apply andb_true_iff in V as [Vd Vs].
    cbn [app for_append].
    destruct (validate_PortfolioProject (delete "_id" doc)) as [?|p]; [done|].
    erewrite bind_ok; [|reflexivity].
    erewrite bind_raise; [reflexivity|]. by apply IH.
Qed.

(** X10.  One stored project document that does not validate makes the
    whole listing fail: with the documents before it valid, the request
    ends in the validation error of that document, uncaught, and none of
    the valid projects is returned. *)
Theorem projects_read_invalid (w : World) (d : Database)
    (good rest : list Document) (bad : Document) (errs : list FieldError) :
  let op := OpFind "portfolioproject" None in
  db w = Some d -> fault d op = None ->
  docs_of d "portfolioproject" = good ++ bad :: rest ->
  forallb (fun doc => accepted (validate_PortfolioProject (delete "_id" doc))) good
  = true ->
  validate_PortfolioProject (delete "_id" bad) = inl errs ->
  GET_api_projects w = (Unhandled (ValidationError errs), logged op w).
Proof.
  intros op E F D V B. subst op. unfold GET_api_projects, respond, list_projects.
  erewrite bind_ok; [|by apply get_documents_read].
  cbn [limited]. rewrite D. cbv zeta.
  by rewrite (validate_each_fails good rest bad errs _ V B).
Qed.

(** X11.  Diagnostics with a handle.  The status says ["Connected"], names
    the database and reports whether [DATABASE_URL] is set and non-empty at
    the time of the request; one listing is sent to the store.  If it
    succeeds the first ten collection names are reported; if the store
    refuses it the status carries no collection and the first 80 characters
    of the refusal's message (all of it when it has no more). *)
Theorem test_database_connected (w : World) (d : Database) :
  db w = Some d ->
  exists s,
    test_database w = (Ok s, logged OpListNames w)
    /\ backend s = "✅ Running"
    /\ connection_status s = "Connected"
    /\ database_name s = db_name d
    /\ database_url s
       = match DATABASE_URL w with
         | Some (String _ _) => "✅ Set"
         | _ => "❌ Not Set"
         end
    /\ match fault d OpListNames with
       | None =>
           database s = "✅ Connected & Working"
           /\ collections s = take 10 (map_to_list (colls d)).*1
       | Some reason =>
           database s = "⚠️ Connected but Error: " +:+ prefix 80 reason
           /\ len (prefix 80 reason) = (80 `min` len reason)%nat
           /\ (exists rest, reason = prefix 80 reason +:+ rest)
           /\ collections s = []
       end.
Proof.
  intros E. destruct w as [url o tr]. simpl in E. subst o.
  cbv [test_database with_local try_except global assign modify gets
         list_collection_names send getenv_DATABASE_URL mbind Eff_bind mret
         Eff_ret db DATABASE_URL trace fst snd].
  destruct (fault d OpListNames) as [reason|].
  - eexists. split; [reflexivity|]. cbn.
    repeat split; try done;
      [by destruct url as [[|]|] | apply len_prefix | apply prefix_is_prefix].
  - eexists. split; [reflexivity|]. cbn.
    repeat split; try done. by destruct url as [[|]|].
Qed.
End ReadEndpoints.

(** ** Seeding, then reading *)

Section SeedThenRead.
Context `{Pydantic}.

Lemma demo_profile_reads_back (_id : string) :
  validate_PortfolioProfile (delete "_id" (<["_id" := VStr _id]> demo_profile))
  = inr demo_profile_model.
Proof. vm_compute. reflexivity. Qed.

Lemma sample_reads_back :
  Forall2
    (fun p model =>
       forall _id : string,
         validate_PortfolioProject (delete "_id" (<["_id" := VStr _id]> p)) = inr model)
    sample sample_models.
Proof. repeat constructor; intros _id; vm_compute; reflexivity. Qed.

Lemma validate_each_models (docs : list Document) (models : list PortfolioProject.t)
    (w : World) :
  Forall2 (fun doc model => validate_PortfolioProject (delete "_id" doc) = inr model)
    docs models ->
  for_append docs
    (fun d =>
       match validate_PortfolioProject (delete "_id" d) with
       | inr p => mret p
       | inl errs => raise (ValidationError errs)
       end) w
  = (Ok models, w).
Proof.
  induction 1 as [|doc model docs models Ev _ IH]; [done|].
  cbn [for_append]. rewrite Ev.
  erewrite bind_ok; [|reflexivity]. by erewrite bind_ok.
Qed.

Lemma seeded_project_docs d :
  docs_of d "portfolioproject" = [] ->
  exists ids,
    docs_of (seeded d) "portfolioproject"
    = zip_with (fun _id p => <["_id" := VStr _id]> p) ids sample
    /\ length ids = length sample.
Proof.
  intros Hq. unfold seeded, sample. cbn [fold_left].
  rewrite !docs_of_insert_one, docs_of_insert_one_ne, Hq by done.
  eexists [_; _; _]. by split.
Qed.

Lemma demo_profile_served : dump_PortfolioProfile demo_profile_model = demo_profile.
Proof. by vm_compute. Qed.

Lemma sample_served :
  (fun p => VDict (dump_PortfolioProject p)) <$> sample_models = VDict <$> sample.
Proof. by vm_compute. Qed.

(** X12.  What is seeded is what is served.  The seed inserts the demo
    content as plain dicts, unvalidated; after a seed of a connected store
    that refuses nothing and had both collections empty, GET /api/profile
    answers with exactly the profile dict of the seed, and GET /api/projects
    with exactly the three project dicts of the seed, in some order, none
    with an ["_id"], for every email and URL syntax check. *)
Theorem seed_then_read (w : World) (d : Database) :
  db w = Some d -> healthy d ->
  docs_of d "portfolioprofile" = [] -> docs_of d "portfolioproject" = [] ->
  let w1 := (POST_api_seed (mkSeedRequest true) w).2 in
  (GET_api_profile w1).1 = JSONResponse 200 (VDict demo_profile)
  /\ exists items,
       (GET_api_projects w1).1 = JSONResponse 200 (VList items)
       /\ items ≡ₚ VDict <$> sample.
Proof.
  intros E Hd Hp Hq w1. destruct w as [url o tr]. simpl in E. subst o.
  assert (E1 : db w1 = Some (seeded d)).
  { subst w1. unfold POST_api_seed, respond. by rewrite seed_content_fresh. }
  clearbody w1.
  pose proof (healthy_seeded d Hd) as Hs.
  split.
  - unfold GET_api_profile, respond, get_profile.
    erewrite bind_ok; [|by apply get_documents_read].
    rewrite seeded_profiles, Hp. cbn [app limited take]. cbv zeta.
    rewrite demo_profile_reads_back.
    change (JSONResponse 200 (VDict (dump_PortfolioProfile demo_profile_model))
            = JSONResponse 200 (VDict demo_profile)).
    by rewrite demo_profile_served.
  - exists (VDict <$> sample). split; [|done].
    unfold GET_api_projects, respond, list_projects.
    erewrite bind_ok; [|by apply get_documents_read].
    destruct (seeded_project_docs d Hq) as (ids & -> & L).
    cbn [limited]. cbv zeta.
    rewrite (validate_each_models _ sample_models).
    { change (JSONResponse 200
                (VList ((fun p => VDict (dump_PortfolioProject p)) <$> sample_models))
              = JSONResponse 200 (VList (VDict <$> sample))).
      by rewrite sample_served. }
    pose proof sample_reads_back as R. revert ids L.
    induction R as [|p model ps models Ev _ IH]; intros [|i ids] L; try done.
    cbn [zip_with]. constructor; [apply Ev|]. apply IH. by injection L.
Qed.
End SeedThenRead.

(** ** The schemas on their own *)

Section Schemas.
Context `{Pydantic}.

(** X13.  A project the schema accepts has strings under [title] and
    [description], and these are the title and description of the validated
    record; a document lacking either is not accepted. *)
Theorem project_required_fields (doc : Document) (p : PortfolioProject.t) :
  validate_PortfolioProject doc = inr p ->
  doc !! "title" = Some (VStr (PortfolioProject.title p))
  /\ doc !! "description" = Some (VStr (PortfolioProject.description p)).
Proof.
  unfold validate_PortfolioProject.
  match goal with |- match ?x with _ => _ end = _ -> _ => destruct x as [?|t] eqn:E end;
    [done|].
  destruct t as [[[[[t d] i] tg] u] r]. intros [= <-]. simpl.
  repeat (apply both_inr in E; destruct E as [E ?]).
  by rewrite <- !required_str_inr.
Qed.

(** X14.  A stored profile with nothing but the required fields is served
    with the declared defaults filled in: [location] and [avatar] null,
    [skills] an empty array, and [socials] an object with the four platform
    keys, each null. *)
Theorem profile_read_defaults (w : World) (d : Database) (doc : Document)
    (rest : list Document) (n r b : string) :
  let op := OpFind "portfolioprofile" (Some 1%nat) in
  db w = Some d -> fault d op = None ->
  docs_of d "portfolioprofile" = doc :: rest ->
  doc !! "name" = Some (VStr n) -> doc !! "role" = Some (VStr r) ->
  doc !! "bio" = Some (VStr b) ->
  doc !! "location" = None -> doc !! "avatar" = None ->
  doc !! "socials" = None -> doc !! "skills" = None ->
  GET_api_profile w
  = (JSONResponse 200
       (VDict (list_to_map
                 [("name", VStr n); ("role", VStr r); ("bio", VStr b);
                  ("location", VNull); ("avatar", VNull);
                  ("socials",
                   VDict (list_to_map
                            [("github", VNull); ("twitter", VNull);
                             ("linkedin", VNull); ("website", VNull)]));
                  ("skills", VList [])])),
     logged op w).
Proof.
  intros op E F D En Er Eb El Ea Eso Esk. subst op.
  unfold GET_api_profile, respond, get_profile.
  erewrite bind_ok; [|by apply get_documents_read].
  rewrite D. cbn [limited take]. cbv zeta.
  assert (Ev : validate_PortfolioProfile (delete "_id" doc)
               = inr (PortfolioProfile.mk n r b None None default_socials [])).
  { unfold validate_PortfolioProfile, required, defaulted.
    rewrite !lookup_delete_ne by done.
    by rewrite En, Er, Eb, El, Ea, Eso, Esk. }
  rewrite Ev. reflexivity.
Qed.
End Schemas.

(** ** The further properties at concrete states *)

Lemma letters_length n : len (letters n) = n.
Proof. induction n as [|n IH]; cbn; [done | by rewrite IH]. Qed.

Lemma seed_fills_empty_collections_only_witness :
  exists w' d',
    POST_api_seed (mkSeedRequest true) minimal_world
    = (JSONResponse 200 (VDict ok_true), w')
    /\ db w' = Some d'
    /\ docs_of d' "portfolioprofile" = [<["_id" := VStr (oid_string 0)]> minimal]
    /\ length (docs_of d' "portfolioproject") = 3%nat.
Proof.
  destruct (seed_fills_empty_collections_only minimal_world minimal_db eq_refl
              (fun _ => eq_refl))
    as (w' & d' & E & Ed & Ep & Eq & _).
  exists w', d'. repeat split; [exact E | exact Ed | exact Ep | exact Eq].
Defined.

Lemma seed_idempotent_witness :
  exists w1 w2,
    POST_api_seed (mkSeedRequest true) minimal_world
    = (JSONResponse 200 (VDict ok_true), w1)
    /\ POST_api_seed (mkSeedRequest true) w1 = (JSONResponse 200 (VDict ok_true), w2)
    /\ db w2 = db w1
    /\ trace w2 = trace w1 ++ [OpCount "portfolioprofile"; OpCount "portfolioproject"].
Proof.
  apply (seed_idempotent minimal_world minimal_db); [reflexivity|].
  intros op. reflexivity.
Defined.

Lemma seed_interrupted_witness :
  exists w' d',
    POST_api_seed (mkSeedRequest true) picky_world
    = (JSONResponse 500 (VDict {["detail" := VStr "write refused"]}), w')
    /\ db w' = Some d'
    /\ length (docs_of d' "portfolioprofile") = 1%nat
    /\ length (docs_of d' "portfolioproject") = 1%nat.
Proof.
  destruct (seed_interrupted picky_world picky_db
              [demo_project "ColorSplash Landing"
                 "Vibrant landing page with animated gradients and responsive design."
                 "/images/project-1.jpg" ["React"; "Tailwind"]]
              [demo_project "API Dashboard"
                 "Clean dashboard consuming REST APIs with reusable components."
                 "/images/project-3.jpg" ["React"; "API"]]
              (demo_project "Portfolio Grid"
                 "Masonry grid of projects with smooth hover effects and modals."
                 "/images/project-2.jpg" ["React"; "Framer Motion"])
              "write refused")
    as (w' & d' & E & Ed & Ep & Eq & _);
    try reflexivity.
  { constructor; [reflexivity | constructor]. }
  exists w', d'. repeat split; [exact E | exact Ed | exact Ep | exact Eq].
Defined.

Lemma contact_accepted_iff_witness :
  parse_ContactIn hello = inr (ContactMessage.mk "Ada" "ada@example.com" "Hello there").
Proof.
  apply (contact_accepted_iff hello_fields).
  split; [reflexivity|]. split; [by exists "ada@example.com"|].
  split; [reflexivity | simpl; lia].
Defined.

Lemma contact_long_message_rejected_witness :
  exists errs, POST_api_contact (VDict verbose_fields) connected
               = (unprocessable errs, connected).
Proof.
  apply (contact_long_message_rejected verbose_fields (letters (S 5000)));
    [reflexivity | rewrite letters_length; lia].
Defined.


Lemma profile_read_first_only_witness :
  (GET_api_profile seeded_world).1 = (GET_api_profile crowded_world).1.
Proof.
  apply (profile_read_first_only seeded_world crowded_world (seeded empty_db)
           crowded_db); reflexivity.
Defined.

Lemma projects_read_invalid_witness :
  GET_api_projects mixed_world
  = (Unhandled (ValidationError [mkFieldError "description" Missing]),
     logged (OpFind "portfolioproject" None) mixed_world).
Proof.
  apply (projects_read_invalid mixed_world mixed_db
           [<["_id" := VStr (oid_string 0)]>
              (demo_project "Portfolio Grid" "Masonry grid" "/images/project-2.jpg"
                 ["React"])]
           [] untitled);
    reflexivity.
Defined.

Lemma test_database_connected_witness :
  exists s,
    test_database unlisted_world = (Ok s, logged OpListNames unlisted_world)
    /\ connection_status s = "Connected"
    /\ database s = "⚠️ Connected but Error: accès refusé"
    /\ collections s = [].
Proof.
  destruct (test_database_connected unlisted_world unlisted_db eq_refl)
    as (s & E & _ & Ec & _ & _ & Ed & _ & _ & El).
  exists s. repeat split; [exact E | exact Ec | exact Ed | exact El].
Defined.

Lemma seed_then_read_witness :
  (GET_api_profile (POST_api_seed (mkSeedRequest true) connected).2).1
  = JSONResponse 200 (VDict demo_profile)
  /\ exists items,
       (GET_api_projects (POST_api_seed (mkSeedRequest true) connected).2).1
       = JSONResponse 200 (VList items)
       /\ items ≡ₚ VDict <$> sample.
Proof.
  apply (seed_then_read connected empty_db); [reflexivity | | reflexivity | reflexivity].
  intros op. reflexivity.
Defined.

Lemma project_required_fields_witness :
  bare_project !! "title" = Some (VStr "Draft")
  /\ bare_project !! "description" = Some (VStr "Work in progress").
Proof.
  apply (project_required_fields bare_project
           (PortfolioProject.mk "Draft" "Work in progress" None [] None None)).
  vm_compute. reflexivity.
Defined.

Lemma profile_read_defaults_witness :
  GET_api_profile minimal_world
  = (JSONResponse 200
       (VDict (list_to_map
                 [("name", VStr "Ada"); ("role", VStr "Developer");
                  ("bio", VStr "Hello");
                  ("location", VNull); ("avatar", VNull);
                  ("socials",
                   VDict (list_to_map
                            [("github", VNull); ("twitter", VNull);
                             ("linkedin", VNull); ("website", VNull)]));
                  ("skills", VList [])])),
     logged (OpFind "portfolioprofile" (Some 1%nat)) minimal_world).
Proof.
  apply (profile_read_defaults minimal_world minimal_db
           (<["_id" := VStr (oid_string 0)]> minimal) []);
    reflexivity.
Defined.

(** ** Seeding without a database *)

Section SeedDegraded.
Context `{Pydantic}.

(** X15.  In a process without a database handle a seed with demo content
    is an error with status 500 whose detail is the interpreter's message
    for subscripting [None], the handle being subscripted before any helper
    of the database module is called; nothing is sent to the store. *)
Theorem seed_without_database (w : World) :
  db w = None ->
  POST_api_seed (mkSeedRequest true) w
  = (JSONResponse 500
       (VDict {["detail" := VStr "'NoneType' object is not subscriptable"]}),
     w).
Proof.
  intros E. unfold POST_api_seed, respond, seed_content.
  erewrite try_raise; last first.
  { cbn [with_demo when]. eapply bind_raise. eapply bind_raise.
    unfold count_documents. by apply send_no_handle. }
  reflexivity.
Qed.
End SeedDegraded.

Lemma seed_without_database_witness :
  POST_api_seed (mkSeedRequest true) degraded
  = (JSONResponse 500
       (VDict {["detail" := VStr "'NoneType' object is not subscriptable"]}),
     degraded).
Proof. apply (seed_without_database degraded). reflexivity. Defined.

(** Characters, not bytes, are counted: a message of 2000 euro signs is
    accepted, one of two accented letters is not. *)
Example contact_counts_characters :
  len "éé" = 2%nat
  /\ accepted (parse_ContactIn (VDict terse_fields)) = false
  /\ len (euros 2000) = 2000%nat
  /\ accepted (parse_ContactIn (VDict pricey_fields)) = true.
Proof. repeat split; by vm_compute. Qed.

(** A seed body whose [with_demo] is no boolean is answered with status 422;
    an empty object seeds. *)
Example seed_body_examples :
  POST_api_seed_json (VDict {["with_demo" := VStr "maybe"]}) connected
  = (unprocessable [mkFieldError "with_demo" WrongType], connected)
  /\ POST_api_seed_json (VDict ∅) connected
     = POST_api_seed (mkSeedRequest true) connected.
Proof. split; by vm_compute. Qed.
